(** * Waveguide validation and analysis helpers (lessons/lesson_1/meep_helpers.py)

    A shallow embedding of [WaveguideTests] and [WaveguideAnalysis], in two
    layers.

    The exact layer.  Python floats and numpy float64 samples are real
    numbers, rounding and overflow left out.  It carries what does not depend
    on rounding: the bookkeeping of the validator and of its report, which
    errors the methods raise, comparisons of given values.  What is kept of
    the floating-point behaviour there is the part that changes control flow:
    - a division of Python floats by zero raises [ZeroDivisionError];
    - a division of numpy scalars by zero raises nothing: it yields
      [inf] or [nan] (with a RuntimeWarning), and every ordered comparison
      with [nan] is [False];
    - [np.sqrt] of a negative number is [nan];
    - reductions ([np.max], [np.argmax], [np.argmin]) over an empty array
      raise [ValueError], indexing out of range raises [IndexError].

    The binary64 layer (module [Float64]).  The numeric methods once more,
    every number an IEEE 754 double and every operation rounded: it carries
    what the checks and the analysis functions compute. *)

From Stdlib Require Import String.
From Stdlib Require Import ZArith Floats.
From Stdlib Require Import Reals Lra Lia List Bool Arith.
From Stdlib Require Import Permutation.
Import ListNotations.
Open Scope string_scope.
Open Scope list_scope.
Open Scope R_scope.

(** ** Exceptions and the error monad *)

Inductive exn := ZeroDivisionError | IndexError | ValueError.

Inductive result (A : Type) : Type :=
| Ok (a : A)
| Raise (e : exn).
Arguments Ok {A} a.
Arguments Raise {A} e.

Definition bind {A B} (c : result A) (k : A -> result B) : result B :=
  match c with
  | Ok a => k a
  | Raise e => Raise e
  end.

Declare Scope py_scope.
Delimit Scope py_scope with py.
Notation "'do' x <- c ; k" := (bind c (fun x => k))
  (at level 10, x name, c at level 100, k at level 200) : py_scope.
Open Scope py_scope.

(** ** Scalars *)

(** A numpy float64 scalar: a real number, or one of the non-finite values. *)
Inductive npfloat := Fin (r : R) | PInf | NInf | NaN.

Definition Rltb (a b : R) : bool := if Rlt_dec a b then true else false.
Definition Rleb (a b : R) : bool := if Rle_dec a b then true else false.
Definition Reqb (a b : R) : bool := if Req_dec_T a b then true else false.

(** [a / b] on Python floats. *)
Definition py_div (a b : R) : result R :=
  if Reqb b 0 then Raise ZeroDivisionError else Ok (a / b).

(** [a / b] on numpy scalars. *)
Definition np_div (a b : R) : npfloat :=
  if Reqb b 0 then
    if Reqb a 0 then NaN else if Rltb 0 a then PInf else NInf
  else Fin (a / b).

(** [np.sqrt]. *)
Definition np_sqrt (a : R) : npfloat :=
  if Rltb a 0 then NaN else Fin (sqrt a).

(** [a * x] for a finite [a]. *)
Definition np_scale (a : R) (x : npfloat) : npfloat :=
  match x with
  | Fin r => Fin (a * r)
  | NaN => NaN
  | PInf => if Reqb a 0 then NaN else if Rltb 0 a then PInf else NInf
  | NInf => if Reqb a 0 then NaN else if Rltb 0 a then NInf else PInf
  end.

Definition np_abs (x : npfloat) : npfloat :=
  match x with
  | Fin r => Fin (Rabs r)
  | PInf | NInf => PInf
  | NaN => NaN
  end.

(** [x >= e] and [x < e] against a finite bound. *)
Definition np_geb (x : npfloat) (e : R) : bool :=
  match x with
  | Fin r => Rleb e r
  | PInf => true
  | NInf | NaN => false
  end.

Definition np_ltb (x : npfloat) (e : R) : bool :=
  match x with
  | Fin r => Rltb r e
  | NInf => true
  | PInf | NaN => false
  end.

(** ** Samples and arrays *)

(** A field sample; a real sample has [Im = 0]. *)
Record complex := mkC { Re : R; Im : R }.

Definition of_real (r : R) : complex := mkC r 0.
Definition Cadd (a b : complex) : complex := mkC (Re a + Re b) (Im a + Im b).
Definition Cmul (a b : complex) : complex :=
  mkC (Re a * Re b - Im a * Im b) (Re a * Im b + Im a * Re b).

(** [np.abs] of one sample. *)
Definition Cabs (z : complex) : R := sqrt (Re z * Re z + Im z * Im z).

(** [exp(i t)]. *)
Definition Cexp_i (t : R) : complex := mkC (cos t) (sin t).

(** A 2D array of shape [(shape0, shape1)], stored by rows: axis 0 is x,
    axis 1 is y. *)
Record ndarray2 := mkArray { shape1 : nat; rows : list (list complex) }.

Definition shape0 (a : ndarray2) : nat := length (rows a).

Definition wf (a : ndarray2) : Prop :=
  Forall (fun r => length r = shape1 a) (rows a).

(** The cell geometry, [mp.Vector3]. *)
Record Vector3 := mkVector3 { v_x : R; v_y : R; v_z : R }.

(** ** The numpy functions the helpers call *)

Module Numpy.

Definition sum (l : list R) : R := fold_right Rplus 0 l.

(** [np.sum] of a 2D array. *)
Definition sum2 (a : list (list R)) : R := sum (map sum a).

(** [a[-1] = v]. *)
Fixpoint set_last (l : list R) (v : R) : list R :=
  match l with
  | [] => []
  | [_] => [v]
  | a :: t => a :: set_last t v
  end.

(** [np.linspace(start, stop, num)], endpoint included. *)
Definition linspace (start stop : R) (num : nat) : list R :=
  let div := (num - 1)%nat in
  let y := map INR (seq 0 num) in
  let delta := stop - start in
  let y :=
    if (0 <? div)%nat then
      let step := delta / INR div in
      if Reqb step 0 then map (fun t => t / INR div * delta) y
      else map (fun t => t * step) y
    else map (fun t => t * delta) y in
  let y := map (fun t => t + start) y in
  if (1 <? num)%nat then set_last y stop else y.

(** [a[mask]] for a boolean mask. *)
Fixpoint compress {A} (mask : list bool) (a : list A) : list A :=
  match mask, a with
  | m :: mask', v :: a' =>
      if m then v :: compress mask' a' else compress mask' a'
  | _, _ => []
  end.

(** The linear scan of [np.argmax] / [np.argmin]: [best] is the index of the
    value [bv] kept so far, [i] the index of the head of the list; a later
    element replaces it only when it is strictly better. *)
Fixpoint scan_max (l : list R) (i best : nat) (bv : R) : nat :=
  match l with
  | [] => best
  | v :: t => if Rltb bv v then scan_max t (S i) i v else scan_max t (S i) best bv
  end.

Fixpoint scan_min (l : list R) (i best : nat) (bv : R) : nat :=
  match l with
  | [] => best
  | v :: t => if Rltb v bv then scan_min t (S i) i v else scan_min t (S i) best bv
  end.

Definition argmax (l : list R) : result nat :=
  match l with
  | [] => Raise ValueError
  | v :: t => Ok (scan_max t 1 0 v)
  end.

Definition argmin (l : list R) : result nat :=
  match l with
  | [] => Raise ValueError
  | v :: t => Ok (scan_min t 1 0 v)
  end.

(** [np.max] of a flattened array. *)
Definition max (l : list R) : result R :=
  match l with
  | [] => Raise ValueError
  | v :: t => Ok (fold_left Rmax t v)
  end.

(** [a[i]] on a 1D array. *)
Definition item {A} (a : list A) (i : nat) : result A :=
  match nth_error a i with
  | Some v => Ok v
  | None => Raise IndexError
  end.

(** [a[:, j]] and [a[i, :]] on a 2D array. *)
Definition column (a : ndarray2) (j : nat) : result (list complex) :=
  if (j <? shape1 a)%nat then Ok (map (fun r => nth j r (of_real 0)) (rows a))
  else Raise IndexError.

Definition row (a : ndarray2) (i : nat) : result (list complex) :=
  item (rows a) i.

(** [np.fft.fft]: [A_k = sum_m a_m exp(-2 pi i m k / n)]. *)
Definition Csum (l : list complex) : complex := fold_right Cadd (of_real 0) l.

Definition dft_bin (a : list complex) (k : nat) : complex :=
  let n := length a in
  Csum (map (fun m => Cmul (nth m a (of_real 0))
                        (Cexp_i (- (2 * PI * INR m * INR k / INR n))))
            (seq 0 n)).

Definition fft (a : list complex) : result (list complex) :=
  match a with
  | [] => Raise ValueError
  | _ => Ok (map (dft_bin a) (seq 0 (length a)))
  end.

(** [np.fft.fftfreq(n, d)]: the bins [0, 1, ..., (n-1)//2, -(n//2), ..., -1]
    scaled by [1.0 / (n * d)]. *)
Definition fftfreq (n : nat) (d : R) : result (list R) :=
  do val <- py_div 1 (INR n * d);
  let N := ((n - 1) / 2 + 1)%nat in
  let p1 := map (fun k => IZR (Z.of_nat k)) (seq 0 N) in
  let p2 := map (fun k => IZR (Z.of_nat k - Z.of_nat (n / 2))) (seq 0 (n / 2)) in
  Ok (map (fun r => r * val) (p1 ++ p2)).

End Numpy.

(** ** class WaveguideTests *)

Module WaveguideTests.

(** The text of ['expected']: the threshold the measured value is held against. *)
Inductive expectation :=
| AtLeast (e : R)              (* f'>= {expected}' *)
| Below (e : R)                (* f'< {cutoff:.3f}' *)
| Between (lo hi : R).         (* f'{min_val} < |E| < {max_val}' *)

(** One entry of [self.results].  ['message'] is kept as the number it shows
    and the verdict word that follows it; number formatting is not modelled. *)
Record CheckResult := mkResult {
  test : string;
  measured : npfloat;
  expected : expectation;
  passed : bool;
  message : npfloat * string
}.

Record t := mkTests { tolerance : R; results : list CheckResult }.

(** A method: it reads and updates [self], and may raise. *)
Definition method (A : Type) : Type := t -> result (A * t).

(** [self.results.append(result)] *)
Definition append (self : t) (r : CheckResult) : t :=
  mkTests (tolerance self) (results self ++ [r]).

(** [__init__(self, tolerance=0.1)] *)
Definition init (tolerance : R) : t := mkTests tolerance [].
Definition init_default : t := init 0.1.

(** *** test_confinement_factor *)

Definition power_of (field_data : ndarray2) : list (list R) :=
  map (map (fun z => Cabs z ^ 2)) (rows field_data).

Definition y_positions_of (field_data : ndarray2) (cell_size : Vector3) : list R :=
  let ny := shape1 field_data in
  Numpy.linspace (- v_y cell_size / 2) (v_y cell_size / 2) ny.

Definition total_power_of (field_data : ndarray2) : R :=
  Numpy.sum2 (power_of field_data).

Definition mask_of (field_data : ndarray2) (waveguide_width : R)
    (cell_size : Vector3) : list bool :=
  map (fun y => Rltb (Rabs y) (waveguide_width / 2))
      (y_positions_of field_data cell_size).

Definition waveguide_power_of (field_data : ndarray2) (waveguide_width : R)
    (cell_size : Vector3) : R :=
  let mask := mask_of field_data waveguide_width cell_size in
  Numpy.sum2 (map (Numpy.compress mask) (power_of field_data)).

Definition gamma_of (field_data : ndarray2) (waveguide_width : R)
    (cell_size : Vector3) : npfloat :=
  np_div (waveguide_power_of field_data waveguide_width cell_size)
         (total_power_of field_data).

Definition test_confinement_factor (field_data : ndarray2)
    (waveguide_width : R) (cell_size : Vector3) (expected : R) : method bool :=
  fun self =>
    let gamma := gamma_of field_data waveguide_width cell_size in
    let passed := np_geb gamma expected in
    let result :=
      {| test := "Confinement Factor";
         measured := gamma;
         expected := AtLeast expected;
         passed := passed;
         message := (gamma, if passed then "PASS" else "FAIL") |} in
    Ok (passed, append self result).

Definition default_expected : R := 0.8.

(** *** test_single_mode_condition *)

Definition V_number (width wavelength n_core n_cladding : R) : result npfloat :=
  do q <- py_div (PI * width) wavelength;
  Ok (np_scale q (np_sqrt (n_core ^ 2 - n_cladding ^ 2))).

Definition cutoff : R := PI / 2.

Definition test_single_mode_condition (width wavelength n_core n_cladding : R)
    : method bool :=
  fun self =>
    do V <- V_number width wavelength n_core n_cladding;
    let passed := np_ltb V cutoff in
    let result :=
      {| test := "Single-Mode Condition";
         measured := V;
         expected := Below cutoff;
         passed := passed;
         message := (V, if passed then "Single-mode PASS" else "Multi-mode FAIL") |} in
    Ok (passed, append self result).

Definition default_n_cladding : R := 1.

(** *** test_field_amplitude *)

Definition abs_of (field_data : ndarray2) : list R :=
  map Cabs (concat (rows field_data)).

Definition test_field_amplitude (field_data : ndarray2) (min_val max_val : R)
    : method bool :=
  fun self =>
    do max_field <- Numpy.max (abs_of field_data);
    let passed := Rltb min_val max_field && Rltb max_field max_val in
    let result :=
      {| test := "Field Amplitude";
         measured := Fin max_field;
         expected := Between min_val max_val;
         passed := passed;
         message := (Fin max_field, if passed then "PASS" else "FAIL") |} in
    Ok (passed, append self result).

Definition default_min_val : R := 1e-6.
Definition default_max_val : R := 1e3.

(** *** test_steady_state *)

Definition test_steady_state (simulation_time frequency min_cycles : R)
    : method bool :=
  fun self =>
    let cycles := simulation_time * frequency in
    let passed := Rleb min_cycles cycles in
    let result :=
      {| test := "Steady-State Convergence";
         measured := Fin cycles;
         expected := AtLeast min_cycles;
         passed := passed;
         message := (Fin cycles,
                     if passed then "PASS" else "WARNING: may not converge") |} in
    Ok (passed, append self result).

Definition default_min_cycles : R := 10.

(** *** test_resolution *)

Definition test_resolution (resolution wavelength min_ppw : R) : method bool :=
  fun self =>
    let ppw := resolution * wavelength in
    let passed := Rleb min_ppw ppw in
    let result :=
      {| test := "Resolution";
         measured := Fin ppw;
         expected := AtLeast min_ppw;
         passed := passed;
         message := (Fin ppw, if passed then "PASS" else "FAIL: too coarse") |} in
    Ok (passed, append self result).

Definition default_min_ppw : R := 8.

(** *** print_report *)

(** What [print_report] writes, line by line. *)
Inductive line :=
| Rule                                   (* "=" * 70 *)
| Title                                  (* SIMULATION TEST REPORT *)
| TestLine (glyph_ok : bool) (i : nat) (name : string)
| MeasuredLine (m : npfloat)
| ExpectedLine (e : expectation)
| MessageLine (m : npfloat * string)
| Summary (passed_count total_count : nat)
| AllPassed
| SomeFailed.

(** [enumerate(self.results, 1)] *)
Fixpoint enumerate {A} (l : list A) (start : nat) : list (nat * A) :=
  match l with
  | [] => []
  | a :: l' => (start, a) :: enumerate l' (S start)
  end.

(** [sum(r['passed'] for r in self.results)] *)
Definition passed_count (self : t) : nat :=
  fold_left (fun acc r => (acc + if passed r then 1 else 0)%nat) (results self) 0%nat.

Definition total_count (self : t) : nat := length (results self).

Definition print_report (self : t) : list line * t :=
  let body :=
    flat_map (fun ir : nat * CheckResult =>
                let (i, result) := ir in
                [TestLine (passed result) i (test result);
                 MeasuredLine (measured result);
                 ExpectedLine (expected result);
                 MessageLine (message result)])
             (enumerate (results self) 1) in
  let passed_count := passed_count self in
  let total_count := total_count self in
  ([Rule; Title; Rule] ++ body ++
   [Rule; Summary passed_count total_count;
    if (passed_count =? total_count)%nat then AllPassed else SomeFailed;
    Rule],
   self).

End WaveguideTests.

(** ** class WaveguideAnalysis *)

Module WaveguideAnalysis.

(** [calculate_effective_index(field_data, cell_size, wavelength_vacuum)] *)
Definition calculate_effective_index (field_data : ndarray2)
    (cell_size : Vector3) (wavelength_vacuum : R) : result npfloat :=
  let mid_y := (shape1 field_data / 2)%nat in
  do field_x <- Numpy.column field_data mid_y;
  do fft <- Numpy.fft field_x;
  do d <- py_div (v_x cell_size) (INR (length field_x));
  do freqs <- Numpy.fftfreq (length field_x) d;
  do am <- Numpy.argmax (map Cabs (skipn 1 fft));
  let dominant_idx := (am + 1)%nat in
  do f <- Numpy.item freqs dominant_idx;
  let k_x := 2 * PI * f in
  do k_0 <- py_div (2 * PI) wavelength_vacuum;
  let n_eff := np_div k_x k_0 in
  Ok (np_abs n_eff).

(** [measure_decay_length(field_data, waveguide_width, cell_size)];
    [np.e] is [exp 1], a nonzero constant. *)
Definition measure_decay_length (field_data : ndarray2)
    (waveguide_width : R) (cell_size : Vector3) : result R :=
  let mid_x := (shape0 field_data / 2)%nat in
  do r <- Numpy.row field_data mid_x;
  let cross_section := map Cabs r in
  let y := Numpy.linspace (- v_y cell_size / 2) (v_y cell_size / 2)
                          (length cross_section) in
  do edge_idx <- Numpy.argmin (map (fun v => Rabs (v - waveguide_width / 2)) y);
  do edge_field <- Numpy.item cross_section edge_idx;
  let target := edge_field / exp 1 in
  do am <- Numpy.argmin (map (fun v => Rabs (v - target))
                             (skipn edge_idx cross_section));
  let outside_idx := (edge_idx + am)%nat in
  do y_out <- Numpy.item y outside_idx;
  do y_edge <- Numpy.item y edge_idx;
  let decay_length := Rabs (y_out - y_edge) in
  Ok decay_length.

End WaveguideAnalysis.

(** ** The quantities of the specification, by index *)

Module Spec.

(** [a[i, j]] *)
Definition sample (a : ndarray2) (i j : nat) : complex :=
  nth j (nth i (rows a) []) (of_real 0).

(** The sum of [f k] over the indices [k] of [l]. *)
Definition sum_over (l : list nat) (f : nat -> R) : R :=
  fold_right (fun k acc => f k + acc) 0 l.

(** The coordinate of grid index [j] of [n] samples spread linearly over
    [[-extent/2, +extent/2]]. *)
Definition coord (extent : R) (n j : nat) : R :=
  - extent / 2 + INR j * extent / INR (n - 1).

(** The columns inside the waveguide band. *)
Definition in_band (a : ndarray2) (width extent : R) (j : nat) : bool :=
  Rltb (Rabs (coord extent (shape1 a) j)) (width / 2).

Definition band (a : ndarray2) (width extent : R) : list nat :=
  filter (in_band a width extent) (seq 0 (shape1 a)).

(** The sum of [|field|^2] down column [j]. *)
Definition column_power (a : ndarray2) (j : nat) : R :=
  sum_over (seq 0 (shape0 a)) (fun i => Cabs (sample a i j) ^ 2).

Definition band_power (a : ndarray2) (width extent : R) : R :=
  sum_over (band a width extent) (column_power a).

(** The sum of [|field|^2] over the whole array. *)
Definition whole_power (a : ndarray2) : R :=
  sum_over (seq 0 (shape0 a))
    (fun i => sum_over (seq 0 (shape1 a)) (fun j => Cabs (sample a i j) ^ 2)).

Definition confinement (a : ndarray2) (width extent : R) : R :=
  band_power a width extent / whole_power a.

(** [M] is the largest magnitude in the array. *)
Definition is_max_abs (a : ndarray2) (M : R) : Prop :=
  (exists i j, (i < shape0 a)%nat /\ (j < shape1 a)%nat /\ Cabs (sample a i j) = M) /\
  (forall i j, (i < shape0 a)%nat -> (j < shape1 a)%nat -> Cabs (sample a i j) <= M).

(** Bin [k] of the discrete Fourier transform of the slice [a[:, j]]. *)
Definition dft (a : ndarray2) (j k : nat) : complex :=
  let n := shape0 a in
  fold_right (fun m acc =>
                Cadd (Cmul (sample a m j)
                           (Cexp_i (- (2 * PI * INR m * INR k / INR n)))) acc)
             (of_real 0) (seq 0 n).

(** [idx] is the dominant bin of [X] among [1 .. n-1]: of maximum magnitude,
    and the lowest such index. *)
Definition dominant_bin (X : nat -> complex) (n idx : nat) : Prop :=
  (1 <= idx < n)%nat /\
  (forall k, (1 <= k < n)%nat -> Cabs (X k) <= Cabs (X idx)) /\
  (forall k, (1 <= k < idx)%nat -> Cabs (X k) < Cabs (X idx)).

(** The spatial frequency of bin [k] of an [n]-point transform over a length
    [extent]: bins above [(n-1)/2] are the negative frequencies. *)
Definition bin_freq (n : nat) (extent : R) (k : nat) : R :=
  (if (k <=? (n - 1) / 2)%nat then INR k else INR k - INR n) / extent.

(** [idx] minimises [f] over [lo .. n-1]. *)
Definition closest (f : nat -> R) (lo n idx : nat) : Prop :=
  (lo <= idx < n)%nat /\ (forall k, (lo <= k < n)%nat -> f idx <= f k).

(** The single-mode parameter. *)
Definition V (width wavelength n_core n_cladding : R) : R :=
  (PI * width / wavelength) * sqrt (n_core ^ 2 - n_cladding ^ 2).

End Spec.

(** ** A run of checks on one validator *)

Module Session.
Import WaveguideTests.

Inductive check_call :=
| ConfinementFactor (field_data : ndarray2) (waveguide_width : R)
    (cell_size : Vector3) (expected : R)
| SingleModeCondition (width wavelength n_core n_cladding : R)
| FieldAmplitude (field_data : ndarray2) (min_val max_val : R)
| SteadyState (simulation_time frequency min_cycles : R)
| Resolution (resolution wavelength min_ppw : R).

Definition run_call (c : check_call) : method bool :=
  match c with
  | ConfinementFactor f w cs e => test_confinement_factor f w cs e
  | SingleModeCondition w l nc ncl => test_single_mode_condition w l nc ncl
  | FieldAmplitude f lo hi => test_field_amplitude f lo hi
  | SteadyState t f m => test_steady_state t f m
  | Resolution r l m => test_resolution r l m
  end.

(** The name each check records under ['test']. *)
Definition name_of (c : check_call) : string :=
  match c with
  | ConfinementFactor _ _ _ _ => "Confinement Factor"
  | SingleModeCondition _ _ _ _ => "Single-Mode Condition"
  | FieldAmplitude _ _ _ => "Field Amplitude"
  | SteadyState _ _ _ => "Steady-State Convergence"
  | Resolution _ _ _ => "Resolution"
  end.

(** The calls in order, each on the validator the previous one left; the
    verdicts returned are collected in the same order. *)
Fixpoint run_calls (cs : list check_call) : method (list bool) :=
  fun self =>
    match cs with
    | [] => Ok ([], self)
    | c :: cs' =>
        do r1 <- run_call c self;
        do r2 <- run_calls cs' (snd r1);
        Ok (fst r1 :: fst r2, snd r2)
    end.

(** The summary line [print_report] writes. *)
Definition summary_of (out : list line) : option (nat * nat) :=
  match filter (fun l => match l with Summary _ _ => true | _ => false end) out with
  | [Summary p n] => Some (p, n)
  | _ => None
  end.

(** The test lines [print_report] writes, in order. *)
Definition test_lines_of (out : list line) : list (bool * nat * string) :=
  flat_map (fun l => match l with TestLine g i s => [(g, i, s)] | _ => [] end) out.

End Session.

(** ** Example inputs *)

(** A 2 x 3 real field, most of its power in the middle column. *)
Definition field_2x3 : ndarray2 :=
  mkArray 3 [[of_real 1; of_real 2; of_real 1];
             [of_real 0; of_real 3; of_real 0]].

Definition zeros_2x2 : ndarray2 :=
  mkArray 2 [[of_real 0; of_real 0]; [of_real 0; of_real 0]].

(** The cell of [quick_waveguide_simulation]. *)
Definition cell_16x8 : Vector3 := mkVector3 16 8 0.

(** Three checks in a row: 30 cycles, 7.5 cycles, 19.28 pixels per wavelength. *)
Definition demo_calls : list Session.check_call :=
  [Session.SteadyState 200 0.15 10;
   Session.SteadyState 50 0.15 10;
   Session.Resolution 10 1.928 8].

(** ** Notions used to state further properties *)

Module Field.

(** [c * field_data]: every sample multiplied by the scalar [c]. *)
Definition scale (c : complex) (a : ndarray2) : ndarray2 :=
  mkArray (shape1 a) (map (map (Cmul c)) (rows a)).

(** [field_data.size]: the number of samples. *)
Definition size (a : ndarray2) : nat := length (concat (rows a)).

End Field.

(** ** quick_waveguide_simulation: the checks run on the solver's output *)

Module QuickStart.
Import WaveguideTests.

(** [a / b] with a numpy scalar [b]. *)
Definition np_rdiv (a : R) (b : npfloat) : npfloat :=
  match b with
  | Fin r => np_div a r
  | PInf | NInf => Fin 0
  | NaN => NaN
  end.

(** [x**2 - c**2] with a numpy scalar [x]. *)
Definition np_sq_minus (x : npfloat) (c : R) : npfloat :=
  match x with
  | Fin r => Fin (r ^ 2 - c ^ 2)
  | PInf | NInf => PInf
  | NaN => NaN
  end.

(** [np.sqrt] of a numpy scalar. *)
Definition np_sqrt_np (x : npfloat) : npfloat :=
  match x with
  | Fin r => np_sqrt r
  | PInf => PInf
  | NInf | NaN => NaN
  end.

(** [test_resolution] as the simulation calls it: the wavelength is the
    numpy scalar [wavelength / n_core]. *)
Definition test_resolution_np (resolution : R) (wavelength : npfloat)
    (min_ppw : R) : method bool :=
  fun self =>
    let ppw := np_scale resolution wavelength in
    let passed := np_geb ppw min_ppw in
    let result :=
      {| test := "Resolution";
         measured := ppw;
         expected := AtLeast min_ppw;
         passed := passed;
         message := (ppw, if passed then "PASS" else "FAIL: too coarse") |} in
    Ok (passed, append self result).

(** [test_single_mode_condition] as the simulation calls it: the core index
    is the numpy scalar [np.sqrt(epsilon)]. *)
Definition test_single_mode_condition_np (width wavelength : R)
    (n_core : npfloat) (n_cladding : R) : method bool :=
  fun self =>
    do q <- py_div (PI * width) wavelength;
    let V := np_scale q (np_sqrt_np (np_sq_minus n_core n_cladding)) in
    let passed := np_ltb V cutoff in
    let result :=
      {| test := "Single-Mode Condition";
         measured := V;
         expected := Below cutoff;
         passed := passed;
         message := (V, if passed then "Single-mode PASS" else "Multi-mode FAIL") |} in
    Ok (passed, append self result).

(** [cell_size = mp.Vector3(16, 8, 0)] *)
Definition cell_size : Vector3 := mkVector3 16 8 0.

(** The block of [quick_waveguide_simulation] that follows the solver:
    [ez_data] is the array [sim.get_array] returned; the result is the
    validator stored under ['tests']. *)
Definition run_tests (ez_data : ndarray2)
    (width frequency epsilon resolution runtime : R) : result t :=
  let tests := init_default in
  do wavelength <- py_div 1 frequency;
  let n_core := np_sqrt epsilon in
  do r1 <- test_resolution_np resolution (np_rdiv wavelength n_core) 8 tests;
  do r2 <- test_single_mode_condition_np width wavelength n_core
             default_n_cladding (snd r1);
  do r3 <- test_field_amplitude ez_data default_min_val default_max_val (snd r2);
  do r4 <- test_confinement_factor ez_data width cell_size 0.7 (snd r3);
  do r5 <- test_steady_state runtime frequency 10 (snd r4);
  Ok (snd r5).

(** The defaults of [quick_waveguide_simulation]. *)
Definition default_width : R := 1.
Definition default_frequency : R := 0.15.
Definition default_epsilon : R := 12.
Definition default_resolution : R := 10.
Definition default_runtime : R := 200.

End QuickStart.

(** ** quick_start.main: the quantitative results *)

Module Main.

(** What the block prints. *)
Inductive out :=
| Heading                                  (* QUANTITATIVE RESULTS, between rules *)
| EffectiveIndexLine (n_eff : npfloat)     (* Effective refractive index: ... *)
| ExpectedRangeLine (n_core : npfloat)     (* (Expected: between 1.0 and ...) *)
| NoteLine (e : exn)                       (* Note: Could not calculate ... *)
| DecayLine (delta : R)                    (* Evanescent decay length: ... *)
| TypicalLine.                             (* (Typical: 0.3-0.6 ...) *)

(** The block of [main] under QUANTITATIVE RESULTS: the effective index is
    computed inside [try ... except Exception], the decay length is not. *)
Definition quantitative_results (ez_data : ndarray2) (cell_size : Vector3)
    (width wavelength : R) (n_core : npfloat) : result (list out) :=
  let printed :=
    match WaveguideAnalysis.calculate_effective_index ez_data cell_size wavelength with
    | Ok n_eff => [EffectiveIndexLine n_eff; ExpectedRangeLine n_core]
    | Raise e => [NoteLine e]
    end in
  do delta <- WaveguideAnalysis.measure_decay_length ez_data width cell_size;
  Ok (Heading :: printed ++ [DecayLine delta; TypicalLine]).

End Main.

(** ** The verdict words of the messages *)

Module Words.

(** The words a message ends with when the check passed. *)
Definition pass_words : list string := ["PASS"; "Single-mode PASS"].

End Words.

(** ** Notions used to state properties of the report *)

Module ReportSpec.
Import WaveguideTests Session.

(** The four lines [print_report] writes for each numbered entry. *)
Definition report_body (l : list (nat * CheckResult)) : list line :=
  flat_map (fun ir : nat * CheckResult =>
              let (i, result) := ir in
              [TestLine (passed result) i (test result);
               MeasuredLine (measured result);
               ExpectedLine (expected result);
               MessageLine (message result)]) l.

(** A call that records [r] whatever the validator. *)
Definition records (c : check_call) (r : CheckResult) : Prop :=
  forall s, run_call c s = Ok (passed r, append s r).

(** An entry whose verdict word agrees with ['passed']. *)
Definition coherent (r : CheckResult) : Prop :=
  In (snd (message r)) Words.pass_words <-> passed r = true.

End ReportSpec.

(** * The binary64 model

    The same methods once more, with every number an IEEE 754 binary64 value
    ([PrimFloat.float]) and every operation the rounded one: this is the
    model for what depends on rounding, overflow or nan.

    - [+], [-], [*], [/] and [np.sqrt] are the correctly rounded IEEE
      operations; [/] on Python floats raises [ZeroDivisionError] on a zero
      divisor, on numpy scalars it yields inf or nan;
    - an ordered comparison with nan is [False];
    - [arr ** 2] on a float64 array is [np.square], one rounded product;
    - [x ** 2] on a Python float goes through the C library's [pow] and raises
      [OverflowError] on a range error.  libm's [pow] is not correctly
      rounded, so the operation is a parameter ([py_pow2]);
    - [np.sum] adds the elements in an order and grouping numpy chooses from
      the memory layout (pairwise, blocked, vectorised): the two reductions of
      the confinement check are parameters, and [Sums] says what any of them
      returns;
    - [np.fft.fft] and [np.abs] on complex128 are parameters as well: their
      rounding is that of the FFT library and of [hypot];
    - [np.linspace], [np.argmax], [np.argmin], [np.fft.fftfreq] follow
      numpy's own code. *)

Module Float64.
Local Open Scope float_scope.

Inductive error := ZeroDivisionError | IndexError | ValueError | OverflowError.

Inductive outcome (A : Type) : Type :=
| Return (a : A)
| Throw (e : error).
Arguments Return {A} a.
Arguments Throw {A} e.

Definition and_then {A B} (c : outcome A) (k : A -> outcome B) : outcome B :=
  match c with
  | Return a => k a
  | Throw e => Throw e
  end.

Declare Scope f64_scope.
Delimit Scope f64_scope with f64.
Notation "'do' x <- c ; k" := (and_then c (fun x => k))
  (at level 10, x name, c at level 100, k at level 200) : f64_scope.
Local Open Scope f64_scope.

(** ** Scalars *)

(** [np.pi], [np.e]: the doubles nearest to pi and e. *)
Definition np_pi : float := 0x1.921fb54442d18p+1.
Definition np_e : float := 0x1.5bf0a8b145769p+1.

(** An index or a length as a float (exact below 2^53). *)
Definition float_of_nat (n : nat) : float :=
  of_uint63 (Uint63.of_Z (Z.of_nat n)).

Definition float_of_int (z : Z) : float :=
  if (z <? 0)%Z then - float_of_nat (Z.to_nat (- z)) else float_of_nat (Z.to_nat z).

(** [a / b] on Python floats. *)
Definition py_div (a b : float) : outcome float :=
  if b =? 0 then Throw ZeroDivisionError else Return (a / b).

(** [a / n] for a Python float [a] and a Python int [n]. *)
Definition py_div_int (a : float) (n : nat) : outcome float :=
  if (n =? 0)%nat then Throw ZeroDivisionError else Return (a / float_of_nat n).

(** A correctly rounded [x ** 2]: what [py_pow2] is where libm's [pow]
    rounds correctly.  The square of a finite float that overflows is a range
    error. *)
Definition pow2_correctly_rounded (x : float) : outcome float :=
  let r := x * x in
  if is_infinity r && negb (is_infinity x) then Throw OverflowError
  else Return r.

(** ** Arrays *)

(** A 2D float64 array: [shape1] is [shape[1]], [shape[0]] is the number of
    rows. *)
Record ndarray := mkArray { shape1 : nat; rows : list (list float) }.

Definition shape0 (a : ndarray) : nat := length (rows a).

Definition wf (a : ndarray) : Prop :=
  Forall (fun r => length r = shape1 a) (rows a).

Record Vector3 := mkVector3 { v_x : float; v_y : float; v_z : float }.

(** A complex128 value: real and imaginary part. *)
Definition complex : Type := float * float.




Module Numpy.

(** [a[-1] = v]. *)
Fixpoint set_last (l : list float) (v : float) : list float :=
  match l with
  | [] => []
  | [_] => [v]
  | a :: t => a :: set_last t v
  end.

(** [np.linspace(start, stop, num)], endpoint included:
    [y = arange(0, num) * step + start] with [step = (stop - start) / div],
    and [y[-1] = stop] when [num > 1]. *)
Definition linspace (start stop : float) (num : nat) : list float :=
  let div := (num - 1)%nat in
  let delta := stop - start in
  let y := map float_of_nat (seq 0 num) in
  let y :=
    if (0 <? div)%nat then
      let step := delta / float_of_nat div in
      if step =? 0 then map (fun t => t / float_of_nat div * delta) y
      else map (fun t => t * step) y
    else map (fun t => t * delta) y in
  let y := map (fun t => t + start) y in
  if (1 <? num)%nat then set_last y stop else y.

(** [a[mask]] for a boolean mask. *)
Fixpoint compress {A} (mask : list bool) (a : list A) : list A :=
  match mask, a with
  | m :: mask', v :: a' =>
      if m then v :: compress mask' a' else compress mask' a'
  | _, _ => []
  end.

(** The scan of [np.argmax]: [mp] is the value kept so far, [best] its
    index, [i] the index of the head of the list.  A nan stops the scan; an
    element replaces [mp] when [not (v <= mp)]. *)
Fixpoint scan_max (l : list float) (i best : nat) (mp : float) : nat :=
  match l with
  | [] => best
  | v :: t =>
      if is_nan mp then best
      else if negb (v <=? mp) then scan_max t (S i) i v
      else scan_max t (S i) best mp
  end.

(** The scan of [np.argmin]: an element replaces [mp] when [not (v >= mp)]. *)
Fixpoint scan_min (l : list float) (i best : nat) (mp : float) : nat :=
  match l with
  | [] => best
  | v :: t =>
      if is_nan mp then best
      else if negb (mp <=? v) then scan_min t (S i) i v
      else scan_min t (S i) best mp
  end.

Definition argmax (l : list float) : outcome nat :=
  match l with
  | [] => Throw ValueError
  | v :: t => Return (scan_max t 1 0 v)
  end.

Definition argmin (l : list float) : outcome nat :=
  match l with
  | [] => Throw ValueError
  | v :: t => Return (scan_min t 1 0 v)
  end.

(** [a[i]] on a 1D array. *)
Definition item {A} (a : list A) (i : nat) : outcome A :=
  match nth_error a i with
  | Some v => Return v
  | None => Throw IndexError
  end.

(** [a[:, j]] and [a[i, :]] on a 2D array. *)
Definition column (a : ndarray) (j : nat) : outcome (list float) :=
  if (j <? shape1 a)%nat then Return (map (fun r => nth j r 0) (rows a))
  else Throw IndexError.

Definition row (a : ndarray) (i : nat) : outcome (list float) :=
  item (rows a) i.

(** [np.fft.fftfreq(n, d)]: [val = 1.0 / (n * d)] and the bins
    [0, 1, ..., (n-1)//2, -(n//2), ..., -1] times [val]. *)
Definition fftfreq (n : nat) (d : float) : outcome (list float) :=
  do val <- py_div 1 (float_of_nat n * d);
  let N := if (n =? 0)%nat then 0%nat else ((n - 1) / 2 + 1)%nat in
  let p1 := map (fun k => float_of_int (Z.of_nat k)) (seq 0 N) in
  let p2 := map (fun k => float_of_int (Z.of_nat k - Z.of_nat (n / 2)))
                (seq 0 (n / 2)) in
  Return (map (fun r => r * val) (p1 ++ p2)).

End Numpy.

Module WaveguideTests.

Inductive expectation :=
| AtLeast (e : float)          (* f'>= {expected}' *)
| Below (e : float).           (* f'< {cutoff:.3f}' *)

(** One entry of [self.results]; ['message'] is kept as the number it shows
    and the verdict word that follows it. *)
Record CheckResult := mkResult {
  test : string;
  measured : float;
  expected : expectation;
  passed : bool;
  message : float * string
}.

Record t := mkTests { tolerance : float; results : list CheckResult }.

Definition method (A : Type) : Type := t -> outcome (A * t).

(** [self.results.append(result)] *)
Definition append (self : t) (r : CheckResult) : t :=
  mkTests (tolerance self) (results self ++ [r]).

(** [__init__(self, tolerance=0.1)] *)
Definition init (tolerance : float) : t := mkTests tolerance [].
Definition init_default : t := init 0x1.999999999999ap-4.

(** [expected=0.8] *)
Definition default_expected : float := 0x1.999999999999ap-1.

(** [n_cladding=1.0] *)
Definition default_n_cladding : float := 1.

Section Confinement.

(** [np.sum(power)] and [np.sum(power[:, mask])]. *)
Variable np_sum_total : list (list float) -> float.
Variable np_sum_masked : list (list float) -> float.

Definition test_confinement_factor (field_data : ndarray)
    (waveguide_width : float) (cell_size : Vector3) (expected : float)
    : method bool :=
  fun self =>
    let ny := shape1 field_data in
    let y_positions :=
      Numpy.linspace (- v_y cell_size / 2) (v_y cell_size / 2) ny in
    let power := map (map (fun x => abs x * abs x)) (rows field_data) in
    let total_power := np_sum_total power in
    let mask := map (fun y => abs y <? waveguide_width / 2) y_positions in
    let waveguide_power := np_sum_masked (map (Numpy.compress mask) power) in
    let gamma := waveguide_power / total_power in
    let passed := expected <=? gamma in
    let result :=
      {| test := "Confinement Factor";
         measured := gamma;
         expected := AtLeast expected;
         passed := passed;
         message := (gamma, if passed then "PASS" else "FAIL") |} in
    Return (passed, append self result).

End Confinement.

Section SingleMode.

(** [x ** 2] on a Python float. *)
Variable py_pow2 : float -> outcome float.

Definition V_number (width wavelength n_core n_cladding : float)
    : outcome float :=
  do q <- py_div (np_pi * width) wavelength;
  do n2 <- py_pow2 n_core;
  do c2 <- py_pow2 n_cladding;
  Return (q * PrimFloat.sqrt (n2 - c2)).

Definition cutoff : float := np_pi / 2.

Definition test_single_mode_condition
    (width wavelength n_core n_cladding : float) : method bool :=
  fun self =>
    do V <- V_number width wavelength n_core n_cladding;
    let passed := V <? cutoff in
    let result :=
      {| test := "Single-Mode Condition";
         measured := V;
         expected := Below cutoff;
         passed := passed;
         message := (V, if passed then "Single-mode PASS"
                        else "Multi-mode FAIL") |} in
    Return (passed, append self result).

End SingleMode.

End WaveguideTests.

Module WaveguideAnalysis.

Section EffectiveIndex.

(** [np.fft.fft] on a real 1D array of at least one sample, and [np.abs] on
    a complex128 value. *)
Variable np_fft_fft : list float -> list complex.
Variable np_abs_complex : complex -> float.

Definition fft (a : list float) : outcome (list complex) :=
  match a with
  | [] => Throw ValueError
  | _ => Return (np_fft_fft a)
  end.

Definition calculate_effective_index (field_data : ndarray)
    (cell_size : Vector3) (wavelength_vacuum : float) : outcome float :=
  let mid_y := (shape1 field_data / 2)%nat in
  do field_x <- Numpy.column field_data mid_y;
  do fft <- fft field_x;
  let n := length field_x in
  do d <- py_div_int (v_x cell_size) n;
  do freqs <- Numpy.fftfreq n d;
  do i <- Numpy.argmax (map np_abs_complex (skipn 1 fft));
  let dominant_idx := (i + 1)%nat in
  do f <- Numpy.item freqs dominant_idx;
  let k_x := 2 * np_pi * f in
  do k_0 <- py_div (2 * np_pi) wavelength_vacuum;
  let n_eff := k_x / k_0 in
  Return (abs n_eff).

End EffectiveIndex.

Definition measure_decay_length (field_data : ndarray)
    (waveguide_width : float) (cell_size : Vector3) : outcome float :=
  let mid_x := (shape0 field_data / 2)%nat in
  do r <- Numpy.row field_data mid_x;
  let cross_section := map abs r in
  let y := Numpy.linspace (- v_y cell_size / 2) (v_y cell_size / 2)
                          (length cross_section) in
  do edge_idx <- Numpy.argmin (map (fun v => abs (v - waveguide_width / 2)) y);
  do edge_field <- Numpy.item cross_section edge_idx;
  let target := edge_field / np_e in
  do k <- Numpy.argmin (map (fun v => abs (v - target))
                            (skipn edge_idx cross_section));
  let outside_idx := (edge_idx + k)%nat in
  do y_out <- Numpy.item y outside_idx;
  do y_edge <- Numpy.item y edge_idx;
  Return (abs (y_out - y_edge)).

End WaveguideAnalysis.

(** ** The notions the claims are stated with, in binary64 *)

Module Spec.

(** The sample at row [i], column [j]. *)
Definition sample (a : ndarray) (i j : nat) : float :=
  nth j (nth i (rows a) []) 0.

(** The coordinate of grid index [j] of [n] over [-extent/2, +extent/2]:
    the start plus [j] steps, each operation rounded, and the end point
    itself at the last index. *)
Definition coord (extent : float) (n j : nat) : float :=
  let start := - extent / 2 in
  let stop := extent / 2 in
  let delta := stop - start in
  if ((1 <? n) && (j =? n - 1))%nat then stop
  else if (1 <? n)%nat then
    let step := delta / float_of_nat (n - 1) in
    if step =? 0 then float_of_nat j / float_of_nat (n - 1) * delta + start
    else float_of_nat j * step + start
  else float_of_nat j * delta + start.

(** Column [j] lies in the band of half-width [width / 2]. *)
Definition in_band (width extent : float) (n j : nat) : bool :=
  abs (coord extent n j) <? width / 2.

(** The indices of the band, in increasing order. *)
Definition band (width extent : float) (n : nat) : list nat :=
  filter (in_band width extent n) (seq 0 n).

(** The squared magnitude of a sample. *)
Definition power (a : ndarray) (i j : nat) : float :=
  abs (sample a i j) * abs (sample a i j).

(** The squared magnitudes of the whole array, and of the band columns. *)
Definition whole_power (a : ndarray) : list (list float) :=
  map (fun i => map (power a i) (seq 0 (shape1 a))) (seq 0 (shape0 a)).

Definition band_power (a : ndarray) (width extent : float)
    : list (list float) :=
  map (fun i => map (power a i) (band width extent (shape1 a)))
      (seq 0 (shape0 a)).

(** [a] comes no later than [b] in the order of [np.argmax], where nan is
    the largest value, and in the order of [np.argmin], where nan is the
    least. *)
Definition le_max (a b : float) : bool := is_nan b || (a <=? b).

(** [idx] is the first index in [lo, hi) at which [f] is largest. *)
Definition first_max (f : nat -> float) (lo hi idx : nat) : Prop :=
  (lo <= idx < hi)%nat /\
  (forall k, (lo <= k < hi)%nat -> le_max (f k) (f idx) = true) /\
  (forall k, (lo <= k < idx)%nat -> le_max (f idx) (f k) = false).


(** The frequency of bin [k] of an [n]-point transform with sample spacing
    [d]: bins above [(n-1)//2] stand for negative frequencies. *)
Definition bin_freq (n : nat) (d : float) (k : nat) : float :=
  let val := 1 / (float_of_nat n * d) in
  (if (k <? (n - 1) / 2 + 1)%nat then float_of_nat k
   else - float_of_nat (n - k)) * val.

End Spec.

(** ** Example inputs *)

(** A 2 x 3 field, most of its power in the middle column. *)
Definition field_2x3 : ndarray :=
  mkArray 3 [[1; 2; 1]; [0; 2; 0]].





Definition cell_16x8 : Vector3 := mkVector3 16 8 0.



End Float64.

(** * Properties *)

(** ** Comparisons *)

Lemma Rltb_true a b : Rltb a b = true <-> a < b.
Proof. unfold Rltb; destruct (Rlt_dec a b); split; intros; try easy. Qed.

Lemma Rltb_false a b : Rltb a b = false <-> b <= a.
Proof.
  unfold Rltb; destruct (Rlt_dec a b); split; intros; try easy; lra.
Qed.

Lemma Rleb_true a b : Rleb a b = true <-> a <= b.
Proof. unfold Rleb; destruct (Rle_dec a b); split; intros; try easy. Qed.

Lemma Rleb_false a b : Rleb a b = false <-> b < a.
Proof.
  unfold Rleb; destruct (Rle_dec a b); split; intros; try easy; lra.
Qed.

Lemma Reqb_true a b : Reqb a b = true <-> a = b.
Proof. unfold Reqb; destruct (Req_dec_T a b); split; intros; try easy. Qed.

Lemma Reqb_false a b : Reqb a b = false <-> a <> b.
Proof. unfold Reqb; destruct (Req_dec_T a b); split; intros; try easy. Qed.

Lemma py_div_ok a b : b <> 0 -> py_div a b = Ok (a / b).
Proof. intros H; unfold py_div; apply Reqb_false in H; now rewrite H. Qed.

Lemma py_div_zero a : py_div a 0 = Raise ZeroDivisionError.
Proof. unfold py_div; now rewrite (proj2 (Reqb_true 0 0) eq_refl). Qed.

Lemma np_div_fin a b : b <> 0 -> np_div a b = Fin (a / b).
Proof. intros H; unfold np_div; apply Reqb_false in H; now rewrite H. Qed.

Lemma np_div_0_0 : np_div 0 0 = NaN.
Proof. unfold np_div; now rewrite (proj2 (Reqb_true 0 0) eq_refl). Qed.


Lemma Cabs_sqr z : Cabs z ^ 2 = Re z * Re z + Im z * Im z.
Proof.
  unfold Cabs; simpl; rewrite Rmult_1_r; apply sqrt_sqrt; nra.
Qed.

Lemma Cabs_of_real r : Cabs (of_real r) = Rabs r.
Proof.
  unfold Cabs, of_real; simpl.
  replace (r * r + 0 * 0) with (r²) by (unfold Rsqr; ring).
  apply sqrt_Rsqr_abs.
Qed.

(** ** Sums *)

Section Sums.

Lemma sum_over_map (l : list nat) (f : nat -> R) :
  Spec.sum_over l f = Numpy.sum (map f l).
Proof. induction l; simpl; congruence. Qed.

Lemma sum_app l1 l2 : Numpy.sum (l1 ++ l2) = Numpy.sum l1 + Numpy.sum l2.
Proof. induction l1; simpl; lra. Qed.

Lemma sum_nonneg l : Forall (fun v => 0 <= v) l -> 0 <= Numpy.sum l.
Proof. induction 1; simpl; lra. Qed.









Lemma compress_sum_le mask (r : list R) :
  Forall (fun v => 0 <= v) r ->
  0 <= Numpy.sum (Numpy.compress mask r) <= Numpy.sum r.
Proof.
  intros H; revert mask; induction H as [|a r Ha Hr IH]; intros mask.
  - destruct mask; simpl; lra.
  - destruct mask as [|m mask]; simpl.
    + pose proof (sum_nonneg _ Hr); lra.
    + specialize (IH mask). destruct m; simpl; lra.
Qed.

End Sums.

(** ** linspace *)

Section Linspace.

Lemma set_last_snoc l a v : Numpy.set_last (l ++ [a]) v = l ++ [v].
Proof.
  induction l as [|b l IH]; [reflexivity|].
  simpl. rewrite IH. destruct l; reflexivity.
Qed.

Lemma linspace_length a b n : length (Numpy.linspace a b n) = n.
Proof.
  assert (Hs : forall l v, length (Numpy.set_last l v) = length l).
  { induction l as [|x l IH]; intros v; [reflexivity|].
    destruct l; [reflexivity|]. simpl in *. now rewrite IH. }
  unfold Numpy.linspace.
  destruct (1 <? n)%nat; [rewrite Hs|];
    destruct (0 <? n - 1)%nat; try destruct (Reqb _ _);
    now rewrite !length_map, length_seq.
Qed.

(** The grid [np.linspace(-extent/2, extent/2, n)] is the linear
    interpolation of the index. *)
Lemma linspace_coord extent n :
  Numpy.linspace (- extent / 2) (extent / 2) n =
  map (Spec.coord extent n) (seq 0 n).
Proof.
  unfold Numpy.linspace.
  destruct n as [|[|m]].
  - reflexivity.
  - simpl. unfold Spec.coord. simpl. f_equal. lra.
  - replace (1 <? S (S m))%nat with true by (symmetry; apply Nat.ltb_lt; lia).
    replace (0 <? S (S m) - 1)%nat with true by (symmetry; apply Nat.ltb_lt; lia).
    replace (S (S m) - 1)%nat with (S m) by lia.
    assert (Hne : INR (S m) <> 0) by (apply not_0_INR; lia).
    assert (E : map (fun t => t + - extent / 2)
                  (if Reqb ((extent / 2 - - extent / 2) / INR (S m)) 0
                   then map (fun t => t / INR (S m) * (extent / 2 - - extent / 2))
                            (map INR (seq 0 (S (S m))))
                   else map (fun t => t * ((extent / 2 - - extent / 2) / INR (S m)))
                            (map INR (seq 0 (S (S m))))) =
                map (Spec.coord extent (S (S m))) (seq 0 (S (S m)))).
    { destruct (Reqb _ _); rewrite !map_map; apply map_ext; intros j;
        unfold Spec.coord; replace (S (S m) - 1)%nat with (S m) by lia;
        field; exact Hne. }
    rewrite E.
    rewrite (seq_S (S m) 0), map_app. simpl map at 2.
    rewrite set_last_snoc. apply f_equal.
    apply (f_equal (fun v => [v])).
    unfold Spec.coord. replace (S (S m) - 1)%nat with (S m) by lia.
    simpl (0 + S m)%nat. field; exact Hne.
Qed.

End Linspace.

(** ** The confinement factor *)

Section Confinement.
Import WaveguideTests.


Lemma wf_row_length a i :
  wf a -> (i < shape0 a)%nat -> length (nth i (rows a) []) = shape1 a.
Proof.
  intros H Hi. unfold wf in H. rewrite Forall_forall in H.
  apply H, nth_In, Hi.
Qed.

Lemma sq_default : Cabs (of_real 0) ^ 2 = 0.
Proof. rewrite Cabs_of_real, Rabs_R0; ring. Qed.


Lemma mask_spec a width cell :
  mask_of a width cell = map (Spec.in_band a width (v_y cell)) (seq 0 (shape1 a)).
Proof.
  unfold mask_of, y_positions_of. rewrite linspace_coord, map_map. reflexivity.
Qed.


Lemma power_nonneg a :
  Forall (Forall (fun v => 0 <= v)) (power_of a).
Proof.
  unfold power_of. apply Forall_map, Forall_forall; intros r _.
  apply Forall_map, Forall_forall; intros z _.
  rewrite Cabs_sqr; nra.
Qed.

Lemma waveguide_power_bounds a width cell :
  0 <= waveguide_power_of a width cell <= total_power_of a.
Proof.
  unfold waveguide_power_of, total_power_of, Numpy.sum2.
  generalize (mask_of a width cell) as mask; intros mask.
  induction (power_nonneg a) as [|r rs Hr Hrs IH]; simpl; [lra|].
  pose proof (compress_sum_le mask r Hr). lra.
Qed.

Lemma gamma_zero_power a width cell :
  total_power_of a = 0 -> gamma_of a width cell = NaN.
Proof.
  intros H0. unfold gamma_of.
  pose proof (waveguide_power_bounds a width cell) as Hb.
  rewrite H0 in *.
  replace (waveguide_power_of a width cell) with 0 by lra.
  apply np_div_0_0.
Qed.

End Confinement.

(** ** The example inputs *)

Lemma field_2x3_wf : wf field_2x3.
Proof. repeat constructor. Qed.

Lemma field_2x3_power : WaveguideTests.total_power_of field_2x3 = 15.
Proof.
  unfold WaveguideTests.total_power_of, WaveguideTests.power_of, Numpy.sum2.
  cbn [field_2x3 rows map Numpy.sum fold_right].
  rewrite !Cabs_of_real, Rabs_R0, Rabs_R1, !Rabs_pos_eq by lra. lra.
Qed.

Lemma zeros_2x2_power : WaveguideTests.total_power_of zeros_2x2 = 0.
Proof.
  unfold WaveguideTests.total_power_of, WaveguideTests.power_of, Numpy.sum2.
  cbn [zeros_2x2 rows map Numpy.sum fold_right].
  rewrite !Cabs_of_real, Rabs_R0. lra.
Qed.

Section ConfinementClaims.
Import WaveguideTests.

(** C9, as amended.  When the total squared magnitude is exactly zero nothing
    guards the division, and nothing is raised either: the quotient of the
    two numpy scalars is 0/0 = nan, the comparison [nan >= expected] is
    False, and the check records and returns False whatever [expected] is. *)
Theorem confinement_factor_zero_power_returns_false
    (field_data : ndarray2) (waveguide_width : R) (cell_size : Vector3)
    (expected : R) (self : t) :
  total_power_of field_data = 0 ->
  test_confinement_factor field_data waveguide_width cell_size expected self
    = Ok (false,
          append self {| test := "Confinement Factor";
                         measured := NaN;
                         expected := AtLeast expected;
                         passed := false;
                         message := (NaN, "FAIL") |}).
Proof.
  intros H0.
  unfold test_confinement_factor.
  rewrite (gamma_zero_power _ _ _ H0). reflexivity.
Qed.

Lemma confinement_factor_zero_power_returns_false_witness :
  test_confinement_factor zeros_2x2 1 cell_16x8 default_expected init_default
    = Ok (false,
          append init_default {| test := "Confinement Factor";
                                 measured := NaN;
                                 expected := AtLeast default_expected;
                                 passed := false;
                                 message := (NaN, "FAIL") |}).
Proof.
  apply (confinement_factor_zero_power_returns_false
           zeros_2x2 1 cell_16x8 default_expected init_default).
  exact zeros_2x2_power.
Defined.

(** C9, as stated, fails: on the all-zero 2 x 2 field the total power is zero
    and the check returns the verdict False; it raises no error. *)
Lemma confinement_factor_zero_power_no_error :
  total_power_of zeros_2x2 = 0 /\
  (exists s,
     test_confinement_factor zeros_2x2 1 cell_16x8 default_expected init_default
       = Ok (false, s)) /\
  (forall e,
     test_confinement_factor zeros_2x2 1 cell_16x8 default_expected init_default
       <> Raise e).
Proof.
  split; [exact zeros_2x2_power|].
  unfold test_confinement_factor.
  rewrite (gamma_zero_power _ _ _ zeros_2x2_power).
  split; [eexists; reflexivity | discriminate].
Qed.

End ConfinementClaims.

(** ** The single-mode condition *)

Section SingleMode.
Import WaveguideTests.

Lemma PI_bounds : 3.1415 < PI < 3.1421.
Proof.
  pose proof (PI_2_3_7_ineq 1) as H.
  unfold sum_f_R0, tg_alt, PI_2_3_7_tg, Ratan_seq in H.
  simpl in H. lra.
Qed.

Lemma sqrt_between a b x :
  0 <= a -> 0 <= b -> a * a < x < b * b -> a < sqrt x < b.
Proof.
  intros Ha Hb [H1 H2]. split.
  - rewrite <- (sqrt_square a Ha). apply sqrt_lt_1_alt. nra.
  - rewrite <- (sqrt_square b Hb). apply sqrt_lt_1_alt. split; [nra|lra].
Qed.

Lemma np_sqrt_fin a : 0 <= a -> np_sqrt a = Fin (sqrt a).
Proof.
  intros H. unfold np_sqrt.
  now rewrite (proj2 (Rltb_false a 0) H).
Qed.

(** On its domain the code's [V] is the V-number of the specification. *)
Lemma V_number_spec width wavelength n_core n_cladding :
  wavelength <> 0 -> n_cladding ^ 2 <= n_core ^ 2 ->
  V_number width wavelength n_core n_cladding
    = Ok (Fin (Spec.V width wavelength n_core n_cladding)).
Proof.
  intros Hw Hn. unfold V_number.
  rewrite py_div_ok by assumption. cbn [bind].
  rewrite np_sqrt_fin by lra. reflexivity.
Qed.

(** With no wavelength the first division raises, before anything is recorded. *)
Lemma V_number_zero_wavelength width n_core n_cladding :
  V_number width 0 n_core n_cladding = Raise ZeroDivisionError.
Proof. unfold V_number. now rewrite py_div_zero. Qed.


Lemma V_example_bounds :
  1.560 < Spec.V 1 6.67 3.46 1 < 1.561 /\ Spec.V 1 6.67 3.46 1 < cutoff.
Proof.
  unfold Spec.V, cutoff.
  pose proof PI_bounds as HPI.
  assert (Hs : 3.3123 < sqrt (3.46 ^ 2 - 1 ^ 2) < 3.3124)
    by (apply sqrt_between; lra).
  set (s := sqrt (3.46 ^ 2 - 1 ^ 2)) in *.
  replace (PI * 1 / 6.67 * s) with (PI * s / 6.67) by (field; lra).
  assert (3.1415 * 3.3123 < PI * s < 3.1421 * 3.3124) by nra.
  lra.
Qed.

(** C6, as amended.  For width 1.0, wavelength 6.67, n_core 3.46 and
    n_cladding 1.0 the single-mode check computes V between 1.560 and 1.561,
    which is below the cutoff pi/2, so it records and returns True
    (single-mode). *)
Theorem single_mode_example_passes :
  exists V,
    V_number 1 6.67 3.46 default_n_cladding = Ok (Fin V) /\
    1.560 < V < 1.561 /\
    V < cutoff /\
    forall self,
      test_single_mode_condition 1 6.67 3.46 default_n_cladding self
        = Ok (true,
              append self {| test := "Single-Mode Condition";
                             measured := Fin V;
                             expected := Below cutoff;
                             passed := true;
                             message := (Fin V, "Single-mode PASS") |}).
Proof.
  exists (Spec.V 1 6.67 3.46 1). unfold default_n_cladding.
  assert (HV : V_number 1 6.67 3.46 1 = Ok (Fin (Spec.V 1 6.67 3.46 1)))
    by (apply V_number_spec; lra).
  destruct V_example_bounds as [Hb Hc].
  split; [exact HV|]. split; [exact Hb|]. split; [exact Hc|].
  intros self. unfold test_single_mode_condition. rewrite HV. cbn [bind np_ltb].
  rewrite (proj2 (Rltb_true _ _) Hc). reflexivity.
Qed.

(** C6, as stated, fails: at these inputs V is below 1.587 and below pi/2,
    and the check returns True, not False. *)
Lemma single_mode_example_not_multimode :
  (exists V,
     V_number 1 6.67 3.46 1 = Ok (Fin V) /\ V < 1.587 /\ V < PI / 2) /\
  (forall b s,
     test_single_mode_condition 1 6.67 3.46 1 init_default = Ok (b, s) ->
     b <> false).
Proof.
  assert (HV : V_number 1 6.67 3.46 1 = Ok (Fin (Spec.V 1 6.67 3.46 1)))
    by (apply V_number_spec; lra).
  destruct V_example_bounds as [Hb Hc].
  split.
  - exists (Spec.V 1 6.67 3.46 1). split; [exact HV|]. split; [lra | exact Hc].
  - intros b s. unfold test_single_mode_condition. rewrite HV. cbn [bind np_ltb].
    rewrite (proj2 (Rltb_true _ _) Hc). intros E; inversion E. discriminate.
Qed.

End SingleMode.

(** ** The field amplitude *)

Section FieldAmplitude.
Import WaveguideTests.


Lemma in_array_index a z :
  wf a ->
  In z (concat (rows a)) <->
  exists i j, (i < shape0 a)%nat /\ (j < shape1 a)%nat /\ Spec.sample a i j = z.
Proof.
  intros Hwf. rewrite in_concat. split.
  - intros (r & Hr & Hz).
    destruct (In_nth _ _ [] Hr) as (i & Hi & Ei).
    destruct (In_nth _ _ (of_real 0) Hz) as (j & Hj & Ej).
    exists i, j. unfold Spec.sample. rewrite Ei. repeat split; auto.
    rewrite <- (wf_row_length a i Hwf Hi), Ei. exact Hj.
  - intros (i & j & Hi & Hj & E).
    exists (nth i (rows a) []). split; [now apply nth_In|].
    rewrite <- E. apply nth_In. now rewrite wf_row_length.
Qed.



Lemma is_max_abs_unique a M1 M2 :
  Spec.is_max_abs a M1 -> Spec.is_max_abs a M2 -> M1 = M2.
Proof.
  intros [(i1 & j1 & Hi1 & Hj1 & E1) H1] [(i2 & j2 & Hi2 & Hj2 & E2) H2].
  specialize (H1 i2 j2 Hi2 Hj2). specialize (H2 i1 j1 Hi1 Hj1). lra.
Qed.


(** An empty array has no maximum: [np.max] raises. *)
Lemma field_amplitude_empty_raises shape min_val max_val self :
  test_field_amplitude (mkArray shape []) min_val max_val self = Raise ValueError.
Proof. reflexivity. Qed.

End FieldAmplitude.


(** ** The report *)

Section Report.
Import WaveguideTests Session.

Lemma run_call_appends c self b self' :
  run_call c self = Ok (b, self') ->
  exists r, self' = append self r /\ passed r = b /\ test r = name_of c.
Proof.
  destruct c; simpl; intros H.
  - unfold test_confinement_factor in H. inversion H; subst.
    eexists; repeat split.
  - unfold test_single_mode_condition in H.
    destruct (V_number _ _ _ _); simpl in H; [|discriminate].
    inversion H; subst. eexists; repeat split.
  - unfold test_field_amplitude in H.
    destruct (Numpy.max _); simpl in H; [|discriminate].
    inversion H; subst. eexists; repeat split.
  - unfold test_steady_state in H. inversion H; subst.
    eexists; repeat split.
  - unfold test_resolution in H. inversion H; subst.
    eexists; repeat split.
Qed.

Lemma run_calls_appends cs : forall self verdicts self',
  run_calls cs self = Ok (verdicts, self') ->
  exists new,
    self' = mkTests (tolerance self) (results self ++ new) /\
    map passed new = verdicts /\
    map test new = map name_of cs.
Proof.
  induction cs as [|c cs IH]; intros self verdicts self' H; simpl in H.
  - inversion H; subst. exists []. rewrite app_nil_r. destruct self'; auto.
  - destruct (run_call c self) as [[b s1]|] eqn:E1; simpl in H; [|discriminate].
    destruct (run_calls cs s1) as [[vs s2]|] eqn:E2; simpl in H; [|discriminate].
    inversion H; subst.
    destruct (run_call_appends _ _ _ _ E1) as (r & -> & Hp & Hn).
    destruct (IH _ _ _ E2) as (new & -> & Hps & Hns).
    exists (r :: new). simpl. rewrite <- app_assoc. simpl.
    repeat split; congruence.
Qed.

Lemma fold_passed_count (l : list CheckResult) acc :
  fold_left (fun a r => (a + if passed r then 1 else 0)%nat) l acc =
  (acc + count_occ bool_dec (map passed l) true)%nat.
Proof.
  revert acc; induction l as [|r l IH]; intros acc; simpl; [lia|].
  rewrite IH. destruct (passed r); simpl; lia.
Qed.

Lemma passed_count_spec self :
  passed_count self = count_occ bool_dec (map passed (results self)) true.
Proof. unfold passed_count. now rewrite fold_passed_count. Qed.

Lemma report_body_no_summary (l : list (nat * CheckResult)) :
  filter (fun l => match l with Summary _ _ => true | _ => false end)
    (flat_map (fun ir : nat * CheckResult =>
                 let (i, result) := ir in
                 [TestLine (passed result) i (test result);
                  MeasuredLine (measured result);
                  ExpectedLine (expected result);
                  MessageLine (message result)]) l) = [].
Proof. induction l as [|[i r] l IH]; simpl; auto. Qed.

Lemma print_report_summary self :
  summary_of (fst (print_report self)) = Some (passed_count self, total_count self).
Proof.
  unfold summary_of, print_report. cbn [fst].
  cbn [app filter]. rewrite filter_app, report_body_no_summary. cbn [app filter].
  destruct (_ =? _)%nat; reflexivity.
Qed.

Lemma report_body_test_lines (l : list CheckResult) start :
  test_lines_of
    (flat_map (fun ir : nat * CheckResult =>
                 let (i, result) := ir in
                 [TestLine (passed result) i (test result);
                  MeasuredLine (measured result);
                  ExpectedLine (expected result);
                  MessageLine (message result)]) (enumerate l start)) =
  map (fun ir : nat * CheckResult => (passed (snd ir), fst ir, test (snd ir)))
      (enumerate l start).
Proof.
  revert start; induction l as [|r l IH]; intros start; simpl; [reflexivity|].
  unfold test_lines_of in *. simpl. now rewrite IH.
Qed.

Lemma print_report_test_lines self :
  test_lines_of (fst (print_report self)) =
  map (fun ir : nat * CheckResult => (passed (snd ir), fst ir, test (snd ir)))
      (enumerate (results self) 1).
Proof.
  unfold print_report. cbn [fst].
  unfold test_lines_of. rewrite !flat_map_app.
  destruct (passed_count self =? total_count self)%nat;
    cbn [flat_map app]; rewrite app_nil_r; apply report_body_test_lines.
Qed.

Lemma enumerate_snd {A} (l : list A) start : map snd (enumerate l start) = l.
Proof. revert start; induction l; intros; simpl; congruence. Qed.

End Report.

Section ReportClaims.
Import WaveguideTests Session.

(** C8.  Every successful check call appends exactly one CheckResult whose
    ['passed'] is the boolean returned and leaves the earlier ones as they
    were.  So after a run of calls the report list is the old list followed by
    one entry per call, in the order of the calls; on a fresh validator its
    length is the number of calls; [print_report] lists the entries in that
    order, reports the list length as the total and the number of True
    verdicts as the passed count, and changes nothing. *)
Theorem report_records_every_check
    (self : t) (cs : list check_call) (verdicts : list bool) (self' : t) :
  run_calls cs self = Ok (verdicts, self') ->
  exists new,
    results self' = results self ++ new /\
    length new = length cs /\
    map passed new = verdicts /\
    map test new = map name_of cs /\
    snd (print_report self') = self' /\
    map snd (test_lines_of (fst (print_report self')))
      = map test (results self) ++ map name_of cs /\
    map (fun l => fst (fst l)) (test_lines_of (fst (print_report self')))
      = map passed (results self) ++ verdicts /\
    summary_of (fst (print_report self'))
      = Some ((passed_count self + count_occ bool_dec verdicts true)%nat,
              (total_count self + length cs)%nat) /\
    (forall tolerance, self = init tolerance ->
       length (results self') = length cs /\
       map passed (results self') = verdicts /\
       summary_of (fst (print_report self'))
         = Some (count_occ bool_dec verdicts true, length cs)).
Proof.
  intros Hrun.
  destruct (run_calls_appends _ _ _ _ Hrun) as (new & -> & Hp & Hn).
  assert (Hlen : length new = length cs).
  { rewrite <- (length_map test new), Hn. apply length_map. }
  assert (Hsum : summary_of (fst (print_report (mkTests (tolerance self)
                                                 (results self ++ new))))
                 = Some ((passed_count self + count_occ bool_dec verdicts true)%nat,
                         (total_count self + length cs)%nat)).
  { rewrite print_report_summary, !passed_count_spec. unfold total_count.
    cbn [results]. rewrite map_app, count_occ_app, length_app, Hp, Hlen.
    reflexivity. }
  exists new. cbn [results].
  split; [reflexivity|]. split; [exact Hlen|]. split; [exact Hp|].
  split; [exact Hn|]. split; [reflexivity|].
  rewrite print_report_test_lines. cbn [results].
  split; [|split; [|split]].
  - rewrite map_map. cbn [snd].
    rewrite <- (map_map snd test), enumerate_snd, map_app. now rewrite Hn.
  - rewrite map_map. cbn [fst].
    rewrite <- (map_map snd passed), enumerate_snd, map_app. now rewrite Hp.
  - exact Hsum.
  - intros tol ->. rewrite Hsum. cbn. split; [exact Hlen|]. split; [exact Hp|].
    reflexivity.
Qed.

End ReportClaims.

(** ** argmax and argmin *)

Section Scan.

Lemma scan_max_spec (l : list R) : forall pre best bv,
  (best < length pre)%nat ->
  nth best pre 0 = bv ->
  (forall k, (k < length pre)%nat -> nth k pre 0 <= bv) ->
  (forall k, (k < best)%nat -> nth k pre 0 < bv) ->
  let r := Numpy.scan_max l (length pre) best bv in
  (r < length (pre ++ l))%nat /\
  (forall k, (k < length (pre ++ l))%nat -> nth k (pre ++ l) 0 <= nth r (pre ++ l) 0) /\
  (forall k, (k < r)%nat -> nth k (pre ++ l) 0 < nth r (pre ++ l) 0).
Proof.
  induction l as [|v t IH]; intros pre best bv Hb Hv Hle Hlt; cbn [Numpy.scan_max].
  - rewrite app_nil_r. cbv zeta. rewrite Hv. auto.
  - assert (Hlen : length (pre ++ [v]) = S (length pre))
      by (rewrite length_app; simpl; lia).
    replace (pre ++ v :: t) with ((pre ++ [v]) ++ t)
      by (rewrite <- app_assoc; reflexivity).
    rewrite <- Hlen.
    destruct (Rltb bv v) eqn:E.
    + apply Rltb_true in E. apply IH.
      * lia.
      * rewrite app_nth2, Nat.sub_diag by lia. reflexivity.
      * intros k Hk. rewrite Hlen in Hk.
        destruct (Nat.eq_dec k (length pre)) as [->|Hne].
        -- rewrite app_nth2, Nat.sub_diag by lia. simpl. lra.
        -- rewrite app_nth1 by lia. specialize (Hle k). assert (k < length pre)%nat by lia.
           specialize (Hle H). lra.
      * intros k Hk. rewrite app_nth1 by lia. specialize (Hle k Hk). lra.
    + apply Rltb_false in E. apply IH.
      * lia.
      * rewrite app_nth1 by lia. exact Hv.
      * intros k Hk. rewrite Hlen in Hk.
        destruct (Nat.eq_dec k (length pre)) as [->|Hne].
        -- rewrite app_nth2, Nat.sub_diag by lia. simpl. lra.
        -- rewrite app_nth1 by lia. apply Hle. lia.
      * intros k Hk. rewrite app_nth1 by lia. now apply Hlt.
Qed.

(** [np.argmax] returns the first index of the largest element. *)
Lemma argmax_spec (l : list R) :
  l <> [] ->
  exists r,
    Numpy.argmax l = Ok r /\
    (r < length l)%nat /\
    (forall k, (k < length l)%nat -> nth k l 0 <= nth r l 0) /\
    (forall k, (k < r)%nat -> nth k l 0 < nth r l 0).
Proof.
  destruct l as [|v t]; [congruence|]. intros _.
  exists (Numpy.scan_max t 1 0 v). split; [reflexivity|].
  apply (scan_max_spec t [v] 0%nat v).
  - simpl; lia.
  - reflexivity.
  - intros k Hk. simpl in Hk. replace k with 0%nat by lia. simpl. lra.
  - intros k Hk. lia.
Qed.

Lemma scan_min_max (l : list R) : forall i best bv,
  Numpy.scan_min l i best bv = Numpy.scan_max (map Ropp l) i best (- bv).
Proof.
  induction l as [|v t IH]; intros i best bv; simpl; [reflexivity|].
  assert (E : Rltb v bv = Rltb (- bv) (- v)).
  { destruct (Rltb v bv) eqn:E1; symmetry.
    - apply Rltb_true in E1. apply Rltb_true. lra.
    - apply Rltb_false in E1. apply Rltb_false. lra. }
  rewrite <- E. destruct (Rltb v bv); apply IH.
Qed.

Lemma nth_map_opp (l : list R) k : nth k (map Ropp l) 0 = - nth k l 0.
Proof.
  rewrite <- Ropp_0 at 1. apply (map_nth Ropp).
Qed.

(** [np.argmin] returns the first index of the smallest element. *)
Lemma argmin_spec (l : list R) :
  l <> [] ->
  exists r,
    Numpy.argmin l = Ok r /\
    (r < length l)%nat /\
    (forall k, (k < length l)%nat -> nth r l 0 <= nth k l 0) /\
    (forall k, (k < r)%nat -> nth r l 0 < nth k l 0).
Proof.
  intros Hne.
  assert (Hne' : map Ropp l <> []) by (destruct l; [congruence|discriminate]).
  destruct (argmax_spec _ Hne') as (r & Hr & Hlt & Hmax & Hfirst).
  exists r. rewrite length_map in *. split.
  - destruct l as [|v t]; [congruence|]. simpl in *.
    rewrite scan_min_max. exact Hr.
  - split; [exact Hlt|]. split.
    + intros k Hk. specialize (Hmax k Hk). rewrite !nth_map_opp in Hmax. lra.
    + intros k Hk. specialize (Hfirst k Hk). rewrite !nth_map_opp in Hfirst. lra.
Qed.

End Scan.

(** ** Lists read through their indices *)

Section Indexing.

Lemma item_ok {A} (l : list A) i d :
  (i < length l)%nat -> Numpy.item l i = Ok (nth i l d).
Proof.
  intros H. unfold Numpy.item.
  now rewrite (nth_error_nth' l d H).
Qed.

Lemma nth_map_seq {A} (f : nat -> A) s m k d :
  (k < m)%nat -> nth k (map f (seq s m)) d = f (s + k)%nat.
Proof.
  intros H.
  rewrite (nth_indep _ d (f 0%nat)) by (now rewrite length_map, length_seq).
  rewrite (map_nth f), seq_nth by assumption. reflexivity.
Qed.

Lemma list_as_map {A} (l : list A) d :
  l = map (fun k => nth k l d) (seq 0 (length l)).
Proof.
  apply (nth_ext _ _ d d).
  - now rewrite length_map, length_seq.
  - intros k Hk. now rewrite nth_map_seq.
Qed.

Lemma map_seq_nonempty {A} (f : nat -> A) s m :
  (0 < m)%nat -> map f (seq s m) <> [].
Proof. destruct m; [lia | discriminate]. Qed.

Lemma half_lt n : (0 < n)%nat -> (n / 2 < n)%nat.
Proof. intros H. apply Nat.div_lt; lia. Qed.

End Indexing.

(** ** The claims on the example inputs *)


Lemma demo_calls_run :
  exists self',
    Session.run_calls demo_calls WaveguideTests.init_default
      = Ok ([true; false; true], self').
Proof.
  assert (E1 : Rleb 10 (200 * 0.15) = true) by (apply Rleb_true; lra).
  assert (E2 : Rleb 10 (50 * 0.15) = false) by (apply Rleb_false; lra).
  assert (E3 : Rleb 8 (10 * 1.928) = true) by (apply Rleb_true; lra).
  eexists. unfold demo_calls.
  cbn [Session.run_calls Session.run_call].
  unfold WaveguideTests.test_steady_state, WaveguideTests.test_resolution.
  cbn [bind fst snd]. rewrite E1, E2, E3. reflexivity.
Qed.

Lemma report_records_every_check_witness :
  exists self' new,
    Session.run_calls demo_calls WaveguideTests.init_default
      = Ok ([true; false; true], self') /\
    WaveguideTests.results self'
      = WaveguideTests.results WaveguideTests.init_default ++ new /\
    length new = length demo_calls /\
    map WaveguideTests.passed new = [true; false; true] /\
    Session.summary_of (fst (WaveguideTests.print_report self')) = Some (2, 3)%nat.
Proof.
  destruct demo_calls_run as [self' Hrun].
  destruct (report_records_every_check _ _ _ _ Hrun)
    as (new & H1 & H2 & H3 & _ & _ & _ & _ & _ & H9).
  exists self', new.
  destruct (H9 0.1 eq_refl) as (_ & _ & Hs).
  repeat split; assumption.
Defined.

(** ** The model on small inputs *)

Section Examples.
Import WaveguideTests.

Example linspace_3 : Numpy.linspace (- (8) / 2) (8 / 2) 3 = [-4; 0; 4].
Proof.
  rewrite linspace_coord. unfold Spec.coord. simpl.
  repeat (f_equal; try lra).
Qed.

Example linspace_1 : Numpy.linspace (- (8) / 2) (8 / 2) 1 = [-4].
Proof.
  rewrite linspace_coord. unfold Spec.coord. simpl.
  f_equal. lra.
Qed.

Example fftfreq_4 : Numpy.fftfreq 4 1 = Ok [0; 1 / 4; - 2 / 4; - 1 / 4].
Proof.
  unfold Numpy.fftfreq.
  rewrite py_div_ok by (simpl; lra). cbn [bind].
  change ((4 - 1) / 2 + 1)%nat with 2%nat. change (4 / 2)%nat with 2%nat.
  simpl. repeat (f_equal; try lra).
Qed.

Example fftfreq_5 :
  Numpy.fftfreq 5 1 = Ok [0; 1 / 5; 2 / 5; - 2 / 5; - 1 / 5].
Proof.
  unfold Numpy.fftfreq.
  rewrite py_div_ok by (simpl; lra). cbn [bind].
  change ((5 - 1) / 2 + 1)%nat with 3%nat. change (5 / 2)%nat with 2%nat.
  simpl. repeat (f_equal; try lra).
Qed.

Example argmax_first_of_ties : Numpy.argmax [1; 3; 2; 3] = Ok 1%nat.
Proof.
  unfold Numpy.argmax. cbn [Numpy.scan_max].
  rewrite (proj2 (Rltb_true 1 3)) by lra.
  rewrite (proj2 (Rltb_false 3 2)) by lra.
  rewrite (proj2 (Rltb_false 3 3)) by lra.
  reflexivity.
Qed.

Example argmin_first_of_ties : Numpy.argmin [2; 1; 3; 1] = Ok 1%nat.
Proof.
  unfold Numpy.argmin. cbn [Numpy.scan_min].
  rewrite (proj2 (Rltb_true 1 2)) by lra.
  rewrite (proj2 (Rltb_false 3 1)) by lra.
  rewrite (proj2 (Rltb_false 1 1)) by lra.
  reflexivity.
Qed.

(** On [field_2x3] over an 8-wide transverse extent only the middle column
    (coordinate 0) lies in a band of width 1: 13 of the 15 units of power. *)
Example confinement_2x3 :
  gamma_of field_2x3 1 cell_16x8 = Fin (13 / 15) /\
  forall self,
    exists s,
      test_confinement_factor field_2x3 1 cell_16x8 default_expected self
        = Ok (true, s).
Proof.
  assert (Hm : mask_of field_2x3 1 cell_16x8 = [false; true; false]).
  { rewrite mask_spec. unfold Spec.in_band, Spec.coord. simpl.
    repeat f_equal.
    - apply Rltb_false. replace (- (8) / 2 + 0 * 8 / (1 + 1)) with (- (4)) by lra.
      rewrite Rabs_Ropp, Rabs_pos_eq; lra.
    - apply Rltb_true. replace (- (8) / 2 + 1 * 8 / (1 + 1)) with 0 by lra.
      rewrite Rabs_R0; lra.
    - apply Rltb_false. replace (- (8) / 2 + (1 + 1) * 8 / (1 + 1)) with 4 by lra.
      rewrite Rabs_pos_eq; lra. }
  assert (Hw : waveguide_power_of field_2x3 1 cell_16x8 = 13).
  { unfold waveguide_power_of. rewrite Hm.
    unfold power_of, Numpy.sum2. simpl.
    rewrite !Cabs_of_real, !Rabs_pos_eq by lra. lra. }
  assert (Hg : gamma_of field_2x3 1 cell_16x8 = Fin (13 / 15)).
  { unfold gamma_of. rewrite Hw, field_2x3_power. apply np_div_fin. lra. }
  split; [exact Hg|].
  intros self. eexists. unfold test_confinement_factor. rewrite Hg.
  cbn [np_geb]. unfold default_expected.
  rewrite (proj2 (Rleb_true 0.8 (13 / 15))) by lra. reflexivity.
Qed.

(** The run of [quick_waveguide_simulation] lasts 30 cycles; a run of 50 time
    units would last 7.5, short of the 10 required. *)
Example steady_state_200 self :
  exists s, test_steady_state 200 0.15 default_min_cycles self = Ok (true, s).
Proof.
  eexists. unfold test_steady_state, default_min_cycles.
  rewrite (proj2 (Rleb_true 10 (200 * 0.15))) by lra. reflexivity.
Qed.

Example steady_state_50 self :
  exists s, test_steady_state 50 0.15 default_min_cycles self = Ok (false, s).
Proof.
  eexists. unfold test_steady_state, default_min_cycles.
  rewrite (proj2 (Rleb_false 10 (50 * 0.15))) by lra. reflexivity.
Qed.

End Examples.

(** * Further properties of the code *)

(** ** Which checks can raise *)

Section Raising.
Import WaveguideTests Session.

Lemma abs_of_nil_size a : abs_of a = [] <-> Field.size a = 0%nat.
Proof.
  unfold abs_of, Field.size. split; intros H.
  - apply map_eq_nil in H. now rewrite H.
  - apply length_zero_iff_nil in H. now rewrite H.
Qed.

End Raising.

(** ** The report: banner, layout, independence of the checks *)

Section ReportMore.
Import WaveguideTests Session ReportSpec.

Lemma count_true_le (l : list bool) :
  (count_occ bool_dec l true <= length l)%nat.
Proof. induction l as [|b l IH]; simpl; [lia|]. destruct (bool_dec b true); lia. Qed.

Lemma count_true_all (l : list bool) :
  count_occ bool_dec l true = length l <-> Forall (fun b => b = true) l.
Proof.
  induction l as [|b l IH]; simpl.
  - split; auto.
  - pose proof (count_true_le l) as Hle. destruct (bool_dec b true) as [->|Hb].
    + split; intros H.
      * constructor; [reflexivity|]. apply IH. lia.
      * inversion H; subst. f_equal. now apply IH.
    + split; intros H; [lia|]. inversion H; subst. contradiction.
Qed.

Lemma report_body_no_banner l x :
  In x (report_body l) -> x <> AllPassed /\ x <> SomeFailed.
Proof.
  unfold report_body. rewrite in_flat_map. intros ([i r] & _ & Hx).
  simpl in Hx. destruct Hx as [<-|[<-|[<-|[<-|[]]]]]; split; discriminate.
Qed.

Lemma print_report_shape self :
  fst (print_report self) =
  [Rule; Title; Rule] ++ report_body (enumerate (results self) 1) ++
  [Rule; Summary (passed_count self) (total_count self);
   if (passed_count self =? total_count self)%nat then AllPassed else SomeFailed;
   Rule].
Proof. reflexivity. Qed.

Lemma all_passed_iff self :
  (passed_count self =? total_count self)%nat = true <->
  Forall (fun r => passed r = true) (results self).
Proof.
  rewrite Nat.eqb_eq, passed_count_spec. unfold total_count.
  rewrite <- (length_map passed), count_true_all, Forall_map. reflexivity.
Qed.

(** X8.  [print_report] writes the all-passed banner exactly when every
    recorded check passed, and the some-failed banner otherwise; never both.
    On a validator with no checks it reports 0/0 and the all-passed banner. *)
Theorem print_report_banner (self : t) :
  (In AllPassed (fst (print_report self)) <->
   Forall (fun r => passed r = true) (results self)) /\
  (In SomeFailed (fst (print_report self)) <->
   ~ Forall (fun r => passed r = true) (results self)) /\
  (results self = [] ->
   fst (print_report self)
   = [Rule; Title; Rule; Rule; Summary 0 0; AllPassed; Rule]).
Proof.
  pose proof (all_passed_iff self) as Hall.
  rewrite print_report_shape.
  assert (Hin : forall x, (x = AllPassed \/ x = SomeFailed) ->
            (In x ([Rule; Title; Rule] ++ report_body (enumerate (results self) 1) ++
                   [Rule; Summary (passed_count self) (total_count self);
                    if (passed_count self =? total_count self)%nat
                    then AllPassed else SomeFailed; Rule])
             <-> (if (passed_count self =? total_count self)%nat
                  then AllPassed else SomeFailed) = x)).
  { intros x Hx. rewrite !in_app_iff. split.
    - intros [H|[H|H]].
      + simpl in H. destruct Hx; subst; intuition discriminate.
      + apply report_body_no_banner in H. destruct Hx; subst; tauto.
      + simpl in H. destruct Hx; subst; intuition discriminate.
    - intros H. right. right. simpl. auto. }
  split; [|split].
  - rewrite Hin by auto. rewrite <- Hall.
    destruct (_ =? _)%nat; split; intros; congruence.
  - rewrite Hin by auto. rewrite <- Hall.
    destruct (_ =? _)%nat; split; intros; congruence.
  - intros E. unfold passed_count, total_count. rewrite E. reflexivity.
Qed.

Lemma run_call_frame c s1 :
  (forall e, run_call c s1 = Raise e -> forall s2, run_call c s2 = Raise e) /\
  (forall b s1',
     run_call c s1 = Ok (b, s1') ->
     exists r, s1' = append s1 r /\ passed r = b /\
               forall s2, run_call c s2 = Ok (b, append s2 r)).
Proof.
  destruct c; cbn [run_call].
  - split; [discriminate|]. intros b s1' H.
    unfold test_confinement_factor in *. inversion H; subst.
    eexists; repeat split.
  - unfold test_single_mode_condition.
    destruct (V_number _ _ _ _); cbn [bind].
    + split; [discriminate|]. intros b s1' H. inversion H; subst.
      eexists; repeat split.
    + split; [|discriminate]. intros e0 H s2. exact H.
  - unfold test_field_amplitude.
    destruct (Numpy.max _); cbn [bind].
    + split; [discriminate|]. intros b s1' H. inversion H; subst.
      eexists; repeat split.
    + split; [|discriminate]. intros e0 H s2. exact H.
  - split; [discriminate|]. intros b s1' H.
    unfold test_steady_state in *. inversion H; subst.
    eexists; repeat split.
  - split; [discriminate|]. intros b s1' H.
    unfold test_resolution in *. inversion H; subst.
    eexists; repeat split.
Qed.

(** X10.  No check consults the validator it is run on: neither the
    tolerance given to [__init__] nor the results already recorded change
    the verdict, the entry appended, or the exception raised. *)
Theorem check_ignores_validator_state (c : check_call) (s1 s2 : t) :
  (forall e, run_call c s1 = Raise e -> run_call c s2 = Raise e) /\
  (forall b s1',
     run_call c s1 = Ok (b, s1') ->
     exists r,
       s1' = append s1 r /\
       run_call c s2 = Ok (b, append s2 r) /\
       tolerance s1' = tolerance s1).
Proof.
  destruct (run_call_frame c s1) as [Hr Ho]. split.
  - intros e H. now apply Hr.
  - intros b s1' H. destruct (Ho b s1' H) as (r & -> & _ & Hall).
    exists r. repeat split. apply Hall.
Qed.

Lemma run_calls_records cs : forall s vs s',
  run_calls cs s = Ok (vs, s') <->
  exists new,
    Forall2 records cs new /\
    vs = map passed new /\
    s' = mkTests (tolerance s) (results s ++ new).
Proof.
  induction cs as [|c cs IH]; intros s vs s'.
  - cbn [run_calls]. split.
    + intros H. inversion H; subst. exists []. repeat split; [constructor|].
      rewrite app_nil_r. now destruct s'.
    + intros (new & HF & -> & ->). inversion HF; subst.
      rewrite app_nil_r. now destruct s.
  - cbn [run_calls]. split.
    + intros H.
      destruct (run_call c s) as [[b s1]|] eqn:E1; cbn [bind fst snd] in H;
        [|discriminate].
      destruct (run_calls cs s1) as [[vs0 s2]|] eqn:E2; cbn [bind fst snd] in H;
        [|discriminate].
      inversion H; subst.
      destruct (proj2 (run_call_frame c s) _ _ E1) as (r & -> & Hp & Hall).
      apply IH in E2. destruct E2 as (new & HF & -> & ->).
      exists (r :: new). split; [|split].
      * constructor; [|assumption]. intros s0. rewrite Hp. apply Hall.
      * simpl. now rewrite Hp.
      * unfold append. cbn [tolerance results]. now rewrite <- app_assoc.
    + intros (new & HF & -> & ->). inversion HF as [|c0 r cs0 new0 Hr HF0]; subst.
      rewrite (Hr s). cbn [bind fst snd].
      assert (E : run_calls cs (append s r)
                  = Ok (map passed new0,
                        mkTests (tolerance (append s r))
                                (results (append s r) ++ new0))).
      { apply IH. exists new0. auto. }
      rewrite E. cbn [bind fst snd]. unfold append. cbn [tolerance results].
      now rewrite <- app_assoc.
Qed.

(** X11.  The order of the checks only changes the order of the report: if
    a run of checks succeeds, so does any reordering of it, the verdicts and
    the recorded entries are the same up to that reordering, and the summary
    [print_report] writes is the same. *)
Theorem summary_independent_of_order
    (cs cs' : list check_call) (self : t) (verdicts : list bool) (self' : t) :
  Permutation cs cs' ->
  run_calls cs self = Ok (verdicts, self') ->
  exists verdicts' self'',
    run_calls cs' self = Ok (verdicts', self'') /\
    Permutation verdicts verdicts' /\
    Permutation (results self') (results self'') /\
    summary_of (fst (print_report self''))
    = summary_of (fst (print_report self')).
Proof.
  intros Hperm Hrun.
  apply run_calls_records in Hrun. destruct Hrun as (new & HF & -> & ->).
  destruct (Permutation_Forall2 Hperm HF) as (new' & Hpn & HF').
  exists (map passed new'), (mkTests (tolerance self) (results self ++ new')).
  split; [|split; [|split]].
  - apply run_calls_records. exists new'. auto.
  - now apply Permutation_map.
  - cbn [results]. now apply Permutation_app_head.
  - rewrite !print_report_summary, !passed_count_spec. unfold total_count.
    cbn [results].
    assert (Hp : Permutation (results self ++ new') (results self ++ new))
      by (apply Permutation_app_head; now symmetry).
    rewrite (Permutation_length Hp).
    rewrite (proj1 (Permutation_count_occ bool_dec _ _)
               (Permutation_map passed Hp) true).
    reflexivity.
Qed.

Lemma demo_calls_reordered :
  Permutation demo_calls
    [Resolution 10 1.928 8; SteadyState 200 0.15 10; SteadyState 50 0.15 10].
Proof.
  unfold demo_calls.
  apply Permutation_sym.
  apply (Permutation_cons_app [_; _] [] _).
  apply Permutation_refl.
Qed.

Lemma summary_independent_of_order_witness :
  exists self' verdicts' self'',
    run_calls demo_calls init_default = Ok ([true; false; true], self') /\
    run_calls [Resolution 10 1.928 8; SteadyState 200 0.15 10;
               SteadyState 50 0.15 10] init_default
      = Ok (verdicts', self'') /\
    Permutation [true; false; true] verdicts' /\
    summary_of (fst (print_report self''))
    = summary_of (fst (print_report self')).
Proof.
  destruct demo_calls_run as [self' Hrun].
  destruct (summary_independent_of_order _ _ _ _ _ demo_calls_reordered Hrun)
    as (vs' & s'' & H1 & H2 & _ & H4).
  exists self', vs', s''. auto.
Defined.

Lemma coherent_intro name m e (p : bool) (yes no : string) :
  In yes Words.pass_words -> ~ In no Words.pass_words ->
  coherent (mkResult name m e p (m, if p then yes else no)).
Proof.
  intros Hy Hn. unfold coherent. cbn [message passed snd].
  destruct p; split; intros H; try reflexivity; try assumption;
    [contradiction | discriminate].
Qed.

Lemma run_call_coherent c s b s' :
  run_call c s = Ok (b, s') -> exists r, s' = append s r /\ coherent r.
Proof.
  assert (P1 : In "PASS" Words.pass_words) by (simpl; auto).
  assert (P2 : In "Single-mode PASS" Words.pass_words) by (simpl; auto).
  assert (N : forall w, w <> "PASS" -> w <> "Single-mode PASS" ->
                        ~ In w Words.pass_words).
  { intros w H1 H2 [E|[E|[]]]; congruence. }
  destruct c; cbn [run_call]; intros H.
  - unfold test_confinement_factor in H. inversion H; subst.
    eexists; split; [reflexivity|]. apply coherent_intro; [assumption|].
    apply N; discriminate.
  - unfold test_single_mode_condition in H.
    destruct (V_number _ _ _ _); cbn [bind] in H; [|discriminate].
    inversion H; subst.
    eexists; split; [reflexivity|]. apply coherent_intro; [assumption|].
    apply N; discriminate.
  - unfold test_field_amplitude in H.
    destruct (Numpy.max _); cbn [bind] in H; [|discriminate].
    inversion H; subst.
    eexists; split; [reflexivity|]. apply coherent_intro; [assumption|].
    apply N; discriminate.
  - unfold test_steady_state in H. inversion H; subst.
    eexists; split; [reflexivity|]. apply coherent_intro; [assumption|].
    apply N; discriminate.
  - unfold test_resolution in H. inversion H; subst.
    eexists; split; [reflexivity|]. apply coherent_intro; [assumption|].
    apply N; discriminate.
Qed.

(** X12.  In every report built by check calls on a fresh validator, each
    entry's message ends with a passing word (PASS, Single-mode PASS) exactly
    when the entry passed: the glyph [print_report] draws never contradicts
    the message under it. *)
Theorem report_entries_coherent
    (tolerance : R) (cs : list check_call) (verdicts : list bool) (self' : t) :
  run_calls cs (init tolerance) = Ok (verdicts, self') ->
  Forall (fun r =>
            In (snd (message r)) Words.pass_words <-> passed r = true)
         (results self').
Proof.
  assert (G : forall cs s vs s',
            run_calls cs s = Ok (vs, s') ->
            Forall coherent (results s) -> Forall coherent (results s')).
  { clear. induction cs as [|c cs IH]; intros s vs s' H Hs; cbn [run_calls] in H.
    - inversion H; subst. assumption.
    - destruct (run_call c s) as [[b s1]|] eqn:E1; cbn [bind fst snd] in H;
        [|discriminate].
      destruct (run_calls cs s1) as [[vs0 s2]|] eqn:E2; cbn [bind fst snd] in H;
        [|discriminate].
      inversion H; subst.
      destruct (run_call_coherent _ _ _ _ E1) as (r & -> & Hr).
      apply (IH _ _ _ E2). unfold append. cbn [results].
      apply Forall_app. split; [assumption|]. constructor; [assumption|constructor]. }
  intros H. apply (G _ _ _ _ H). constructor.
Qed.

Lemma report_entries_coherent_witness :
  exists self',
    run_calls demo_calls init_default = Ok ([true; false; true], self') /\
    Forall (fun r =>
              In (snd (message r)) Words.pass_words <-> passed r = true)
           (results self').
Proof.
  destruct demo_calls_run as [self' Hrun].
  exists self'. split; [exact Hrun|].
  exact (report_entries_coherent 0.1 demo_calls _ _ Hrun).
Defined.

End ReportMore.

(** Closes a table of equivalences once the outcome is known. *)
Ltac settle_cases :=
  repeat match goal with
         | |- _ /\ _ => split
         | |- _ <-> _ => split
         end;
  intros;
  repeat match goal with
         | H : exists _, _ |- _ => destruct H
         | H : _ /\ _ |- _ => destruct H
         | H : _ \/ _ |- _ => destruct H
         end;
  repeat match goal with
         | |- _ /\ _ => split
         end;
  try discriminate; try lia; try contradiction;
  try (eexists; reflexivity); try assumption;
  try solve [left; first [lia | assumption]];
  try solve [right; split; first [lia | assumption]].

(** ** The decay length: errors, grid steps, degenerate profiles *)

Section DecayLengthMore.
Import WaveguideAnalysis.

(** The run of [measure_decay_length] where it returns: both searches keep
    the first index among equals. *)
Lemma decay_length_value a width cell :
  wf a -> (0 < shape0 a)%nat -> (0 < shape1 a)%nat ->
  let n := shape1 a in
  let y := Spec.coord (v_y cell) n in
  let mag := fun j => Cabs (Spec.sample a (shape0 a / 2) j) in
  let f := fun j => Rabs (y j - width / 2) in
  exists edge out,
    (edge <= out < n)%nat /\
    (forall k, (k < n)%nat -> f edge <= f k) /\
    (forall k, (edge <= k < n)%nat ->
       Rabs (mag out - mag edge / exp 1) <= Rabs (mag k - mag edge / exp 1)) /\
    (forall k, (edge <= k < out)%nat ->
       Rabs (mag out - mag edge / exp 1) < Rabs (mag k - mag edge / exp 1)) /\
    measure_decay_length a width cell = Ok (Rabs (y out - y edge)).
Proof.
  intros Hwf H0 H1 n y mag f.
  set (mid_x := (shape0 a / 2)%nat) in *.
  unfold measure_decay_length. fold mid_x.
  assert (Hmid : (mid_x < shape0 a)%nat) by now apply half_lt.
  unfold Numpy.row. rewrite (item_ok _ _ [] Hmid). cbn [bind].
  set (r := nth mid_x (rows a) []).
  assert (Hr : length r = n) by now apply wf_row_length.
  assert (Hcs : map Cabs r = map mag (seq 0 n)).
  { rewrite (list_as_map r (of_real 0)) at 1. rewrite map_map, Hr. reflexivity. }
  rewrite length_map, Hr, linspace_coord. fold y. rewrite Hcs, map_map.
  destruct (argmin_spec (map (fun j => Rabs (y j - width / 2)) (seq 0 n)))
    as (edge & He & Helt & Hemin & _).
  { now apply map_seq_nonempty. }
  rewrite length_map, length_seq in Helt, Hemin.
  rewrite He. cbn [bind].
  rewrite (item_ok _ _ 0) by now rewrite length_map, length_seq.
  cbn [bind]. rewrite nth_map_seq by assumption. cbn [Nat.add].
  rewrite skipn_map, skipn_seq, map_map. cbn [Nat.add].
  destruct (argmin_spec (map (fun j => Rabs (mag j - mag edge / exp 1))
                             (seq edge (n - edge))))
    as (am & Ha & Halt & Hamin & Hafirst).
  { apply map_seq_nonempty. lia. }
  rewrite length_map, length_seq in Halt, Hamin.
  rewrite Ha. cbn [bind].
  rewrite !(item_ok _ _ 0) by (rewrite length_map, length_seq; lia).
  cbn [bind]. rewrite !nth_map_seq by lia. cbn [Nat.add].
  exists edge, (edge + am)%nat.
  split; [lia|]. split; [|split; [|split]].
  - intros k Hk. specialize (Hemin k Hk).
    rewrite !nth_map_seq in Hemin by lia. exact Hemin.
  - intros k Hk. specialize (Hamin (k - edge)%nat).
    rewrite !nth_map_seq in Hamin by lia.
    replace (edge + (k - edge))%nat with k in Hamin by lia.
    apply Hamin. lia.
  - intros k Hk. specialize (Hafirst (k - edge)%nat).
    rewrite !nth_map_seq in Hafirst by lia.
    replace (edge + (k - edge))%nat with k in Hafirst by lia.
    apply Hafirst. lia.
  - reflexivity.
Qed.

(** X16.  On a rectangular array [measure_decay_length] returns exactly when
    the array has at least one row and one column; with no row it raises
    IndexError, with rows but no column ValueError. *)
Theorem decay_length_errors
    (field_data : ndarray2) (waveguide_width : R) (cell_size : Vector3) :
  wf field_data ->
  let run := measure_decay_length field_data waveguide_width cell_size in
  ((exists v, run = Ok v) <->
   (0 < shape0 field_data)%nat /\ (0 < shape1 field_data)%nat) /\
  (run = Raise IndexError <-> shape0 field_data = 0%nat) /\
  (run = Raise ValueError <->
   (0 < shape0 field_data)%nat /\ shape1 field_data = 0%nat) /\
  run <> Raise ZeroDivisionError.
Proof.
  intros Hwf run.
  assert (C1 : shape0 field_data = 0%nat -> run = Raise IndexError).
  { intros E. unfold run, measure_decay_length, Numpy.row, Numpy.item.
    unfold shape0 in E. apply length_zero_iff_nil in E. rewrite E.
    rewrite nth_error_nil. reflexivity. }
  assert (C2 : (0 < shape0 field_data)%nat -> shape1 field_data = 0%nat ->
               run = Raise ValueError).
  { intros H0 E. unfold run, measure_decay_length.
    assert (Hmid : (shape0 field_data / 2 < shape0 field_data)%nat)
      by now apply half_lt.
    unfold Numpy.row. rewrite (item_ok _ _ [] Hmid). cbn [bind].
    pose proof (wf_row_length field_data _ Hwf Hmid) as Hr.
    rewrite E in Hr. apply length_zero_iff_nil in Hr. rewrite Hr.
    reflexivity. }
  assert (C3 : (0 < shape0 field_data)%nat -> (0 < shape1 field_data)%nat ->
               exists v, run = Ok v).
  { intros H0 H1.
    destruct (decay_length_value field_data waveguide_width cell_size Hwf H0 H1)
      as (edge & out & _ & _ & _ & _ & E).
    eexists. exact E. }
  destruct (Nat.eq_dec (shape0 field_data) 0) as [E0|N0].
  { rewrite (C1 E0). settle_cases. }
  destruct (Nat.eq_dec (shape1 field_data) 0) as [E1|N1].
  { rewrite (C2 ltac:(lia) E1). settle_cases. }
  destruct (C3 ltac:(lia) ltac:(lia)) as [v Hv]. rewrite Hv. settle_cases.
Qed.

Lemma decay_length_errors_witness :
  (exists v, measure_decay_length field_2x3 1 cell_16x8 = Ok v) <->
  (0 < shape0 field_2x3)%nat /\ (0 < shape1 field_2x3)%nat.
Proof.
  exact (proj1 (decay_length_errors field_2x3 1 cell_16x8 field_2x3_wf)).
Defined.




(** X18.  A profile that does not decay at all is reported as decay length
    0: when the magnitude is the same at every sample of the slice (an
    all-zero field included), the 1/e search stops at the edge index. *)
Theorem decay_length_flat_profile_is_zero
    (field_data : ndarray2) (waveguide_width : R) (cell_size : Vector3)
    (level : R) :
  wf field_data ->
  (0 < shape0 field_data)%nat ->
  (0 < shape1 field_data)%nat ->
  (forall j, (j < shape1 field_data)%nat ->
     Cabs (Spec.sample field_data (shape0 field_data / 2) j) = level) ->
  measure_decay_length field_data waveguide_width cell_size = Ok 0.
Proof.
  intros Hwf H0 H1 Hflat.
  destruct (decay_length_value field_data waveguide_width cell_size Hwf H0 H1)
    as (edge & out & Hr & _ & _ & Hfirst & E).
  assert (Heq : out = edge).
  { destruct (Nat.eq_dec out edge) as [|Hne]; [assumption|].
    specialize (Hfirst edge ltac:(lia)).
    rewrite !Hflat in Hfirst by lia. lra. }
  rewrite E, Heq. f_equal.
  rewrite Rminus_diag. apply Rabs_R0.
Qed.

Lemma decay_length_flat_profile_is_zero_witness :
  measure_decay_length zeros_2x2 1 cell_16x8 = Ok 0.
Proof.
  apply (decay_length_flat_profile_is_zero zeros_2x2 1 cell_16x8 0).
  - repeat constructor.
  - vm_compute; lia.
  - vm_compute; lia.
  - intros j Hj. simpl in Hj.
    assert (Hz : Cabs (of_real 0) = 0) by (rewrite Cabs_of_real; apply Rabs_R0).
    destruct j as [|[|j]]; [exact Hz | exact Hz | lia].
Defined.

End DecayLengthMore.

(** ** quick_waveguide_simulation: the battery of checks *)

Section QuickStartMore.
Import WaveguideTests QuickStart.

Lemma max_abs_runs a :
  Field.size a <> 0%nat -> exists M, Numpy.max (abs_of a) = Ok M.
Proof.
  intros H. destruct (abs_of a) as [|v t0] eqn:E.
  - apply abs_of_nil_size in E. contradiction.
  - eexists. reflexivity.
Qed.

Lemma inv_nonzero f : f <> 0 -> 1 / f <> 0.
Proof.
  intros H. unfold Rdiv. rewrite Rmult_1_l. now apply Rinv_neq_0_compat.
Qed.

(** The run of the battery where it returns. *)
Lemma run_tests_value ez width frequency epsilon resolution runtime :
  frequency <> 0 -> Field.size ez <> 0%nat ->
  exists r1 r2 r3 r4 r5,
    run_tests ez width frequency epsilon resolution runtime
    = Ok (mkTests 0.1 [r1; r2; r3; r4; r5]) /\
    map test [r1; r2; r3; r4; r5]
    = ["Resolution"; "Single-Mode Condition"; "Field Amplitude";
       "Confinement Factor"; "Steady-State Convergence"] /\
    passed r1 = np_geb (np_scale resolution
                          (np_rdiv (1 / frequency) (np_sqrt epsilon))) 8 /\
    passed r2 = np_ltb (np_scale (PI * width / (1 / frequency))
                          (np_sqrt_np (np_sq_minus (np_sqrt epsilon) 1)))
                       cutoff /\
    expected r3 = Between 1e-6 1e3 /\
    expected r4 = AtLeast 0.7 /\
    passed r5 = Rleb 10 (runtime * frequency).
Proof.
  intros Hf Hs. unfold run_tests.
  rewrite py_div_ok by assumption. cbn [bind].
  unfold test_resolution_np. cbn [bind fst snd].
  unfold test_single_mode_condition_np.
  rewrite py_div_ok by now apply inv_nonzero. cbn [bind fst snd].
  unfold test_field_amplitude.
  destruct (max_abs_runs ez Hs) as [M HM]. rewrite HM. cbn [bind fst snd].
  unfold test_confinement_factor. cbn [bind fst snd].
  unfold test_steady_state. cbn [bind fst snd].
  do 5 eexists. split; [reflexivity|].
  repeat split.
Qed.

(** X21.  The battery of [quick_waveguide_simulation] returns exactly when
    the frequency is not zero and the solver's array has at least one
    sample; it then holds five entries, in the order resolution, single-mode
    condition, field amplitude, confinement factor (held against 0.7, not
    the default 0.8), steady state.  A zero frequency raises
    ZeroDivisionError, an empty array ValueError. *)
Theorem quick_simulation_battery
    (ez_data : ndarray2) (width frequency epsilon resolution runtime : R) :
  let run := run_tests ez_data width frequency epsilon resolution runtime in
  ((exists tests, run = Ok tests) <->
   frequency <> 0 /\ Field.size ez_data <> 0%nat) /\
  (run = Raise ZeroDivisionError <-> frequency = 0) /\
  (run = Raise ValueError <-> frequency <> 0 /\ Field.size ez_data = 0%nat) /\
  (forall tests,
     run = Ok tests ->
     map test (results tests)
     = ["Resolution"; "Single-Mode Condition"; "Field Amplitude";
        "Confinement Factor"; "Steady-State Convergence"] /\
     map expected (results tests)
     = [AtLeast 8; Below cutoff; Between 1e-6 1e3; AtLeast 0.7; AtLeast 10]).
Proof.
  intros run.
  assert (C1 : frequency = 0 -> run = Raise ZeroDivisionError).
  { intros E. unfold run, run_tests. rewrite E, py_div_zero. reflexivity. }
  assert (C2 : frequency <> 0 -> Field.size ez_data = 0%nat ->
               run = Raise ValueError).
  { intros Hf E. unfold run, run_tests.
    rewrite py_div_ok by assumption. cbn [bind].
    unfold test_resolution_np. cbn [bind fst snd].
    unfold test_single_mode_condition_np.
    rewrite py_div_ok by now apply inv_nonzero. cbn [bind fst snd].
    unfold test_field_amplitude.
    apply abs_of_nil_size in E. rewrite E. reflexivity. }
  assert (C3 : frequency <> 0 -> Field.size ez_data <> 0%nat ->
               exists tests, run = Ok tests /\
                 map test (results tests)
                 = ["Resolution"; "Single-Mode Condition"; "Field Amplitude";
                    "Confinement Factor"; "Steady-State Convergence"] /\
                 map expected (results tests)
                 = [AtLeast 8; Below cutoff; Between 1e-6 1e3;
                    AtLeast 0.7; AtLeast 10]).
  { intros Hf Hs. unfold run, run_tests.
    rewrite py_div_ok by assumption. cbn [bind].
    unfold test_resolution_np. cbn [bind fst snd].
    unfold test_single_mode_condition_np.
    rewrite py_div_ok by now apply inv_nonzero. cbn [bind fst snd].
    unfold test_field_amplitude.
    destruct (max_abs_runs ez_data Hs) as [M HM]. rewrite HM. cbn [bind fst snd].
    eexists. split; [reflexivity|]. split; reflexivity. }
  destruct (Req_dec frequency 0) as [E0|N0].
  { rewrite (C1 E0). settle_cases. }
  destruct (Nat.eq_dec (Field.size ez_data) 0) as [Es|Ns].
  { rewrite (C2 N0 Es). settle_cases. }
  destruct (C3 N0 Ns) as (tests & Hrun & Hn & He). rewrite Hrun.
  split; [|split; [|split]].
  - split; [intros _; split; assumption | intros _; now exists tests].
  - split; [discriminate | contradiction].
  - split; [discriminate | intros [_ H]; contradiction].
  - intros tests' E. inversion E; subst. split; assumption.
Qed.

Lemma sqrt_sq_minus_one epsilon :
  0 <= epsilon ->
  np_sqrt_np (np_sq_minus (np_sqrt epsilon) 1) = np_sqrt (epsilon - 1).
Proof.
  intros H. rewrite np_sqrt_fin by assumption. cbn [np_sq_minus np_sqrt_np].
  f_equal. rewrite pow2_sqrt by assumption. ring.
Qed.

(** X23.  With the default parameters of [quick_waveguide_simulation]
    (width 1.0, frequency 0.15, epsilon 12, resolution 10, runtime 200) the
    resolution, single-mode and steady-state checks pass whatever non-empty
    field the solver returns: the design is single-mode, V being about 1.563. *)
Theorem quick_simulation_defaults_pass (ez_data : ndarray2) :
  Field.size ez_data <> 0%nat ->
  exists r1 r2 r3 r4 r5,
    run_tests ez_data default_width default_frequency default_epsilon
              default_resolution default_runtime
    = Ok (mkTests 0.1 [r1; r2; r3; r4; r5]) /\
    passed r1 = true /\
    passed r2 = true /\
    (exists V, measured r2 = Fin V /\ 1.562 < V < 1.564) /\
    passed r5 = true.
Proof.
  intros Hs.
  unfold default_width, default_frequency, default_epsilon,
    default_resolution, default_runtime.
  pose proof PI_bounds as HPI.
  assert (Hs12 : 3.46 < sqrt 12 < 3.47) by (apply sqrt_between; lra).
  assert (Hs11 : 3.3166 < sqrt (12 - 1) < 3.3167) by (apply sqrt_between; lra).
  assert (HV : 1.562 < PI * 1 / (1 / 0.15) * sqrt (12 - 1) < 1.564).
  { replace (PI * 1 / (1 / 0.15) * sqrt (12 - 1))
      with (0.15 * (PI * sqrt (12 - 1))) by (field; lra).
    assert (3.1415 * 3.3166 < PI * sqrt (12 - 1) < 3.1421 * 3.3167) by nra.
    lra. }
  unfold run_tests.
  rewrite py_div_ok by lra. cbn [bind].
  unfold test_resolution_np. cbn [bind fst snd].
  unfold test_single_mode_condition_np.
  rewrite py_div_ok by (apply inv_nonzero; lra). cbn [bind fst snd].
  unfold test_field_amplitude.
  destruct (max_abs_runs ez_data Hs) as [M HM]. rewrite HM. cbn [bind fst snd].
  unfold test_confinement_factor. cbn [bind fst snd].
  unfold test_steady_state. cbn [bind fst snd].
  rewrite sqrt_sq_minus_one by lra.
  rewrite !np_sqrt_fin by lra. cbn [np_rdiv].
  rewrite np_div_fin by lra. cbn [np_scale np_geb np_ltb].
  do 5 eexists. split; [reflexivity|]. cbn [passed measured].
  split; [|split; [|split]].
  - apply Rleb_true.
    assert (0 < 1 / 0.15 / sqrt 12 /\ 1.9 < 1 / 0.15 / sqrt 12) as [_ H].
    { split.
      - apply Rdiv_lt_0_compat; lra.
      - apply (Rmult_lt_reg_r (sqrt 12)); [lra|].
        replace (1 / 0.15 / sqrt 12 * sqrt 12) with (1 / 0.15) by (field; lra).
        nra. }
    lra.
  - apply Rltb_true. unfold cutoff. lra.
  - eexists. split; [reflexivity | exact HV].
  - apply Rleb_true. lra.
Qed.

Lemma quick_simulation_defaults_pass_witness :
  exists r1 r2 r3 r4 r5,
    run_tests field_2x3 default_width default_frequency default_epsilon
              default_resolution default_runtime
    = Ok (mkTests 0.1 [r1; r2; r3; r4; r5]) /\
    passed r1 = true /\
    passed r2 = true /\
    (exists V, measured r2 = Fin V /\ 1.562 < V < 1.564) /\
    passed r5 = true.
Proof.
  apply (quick_simulation_defaults_pass field_2x3).
  vm_compute. discriminate.
Defined.

End QuickStartMore.

(** ** quick_start.main after the simulation *)

Section MainMore.
Import WaveguideAnalysis QuickStart Main.

Lemma nonempty_shape a :
  wf a -> Field.size a <> 0%nat ->
  (0 < shape0 a)%nat /\ (0 < shape1 a)%nat.
Proof.
  intros Hwf Hs. unfold Field.size in Hs.
  destruct (concat (rows a)) as [|z l] eqn:E; [contradiction|].
  assert (Hin : In z (concat (rows a))) by (rewrite E; now left).
  apply in_array_index in Hin; [|assumption].
  destruct Hin as (i & j & Hi & Hj & _). lia.
Qed.

(** X24.  Once the battery of [quick_waveguide_simulation] has returned on a
    rectangular array, the quantitative block of [main] always completes:
    the decay length cannot raise, and an exception of the effective index
    is caught and printed as a note in place of the index. *)
Theorem main_quantitative_block_completes
    (ez_data : ndarray2) (width frequency epsilon resolution runtime : R)
    (tests : WaveguideTests.t) :
  wf ez_data ->
  run_tests ez_data width frequency epsilon resolution runtime = Ok tests ->
  exists delta,
    measure_decay_length ez_data width cell_size = Ok delta /\
    (forall n_eff,
       calculate_effective_index ez_data cell_size (1 / frequency) = Ok n_eff ->
       quantitative_results ez_data cell_size width (1 / frequency)
                            (np_sqrt epsilon)
       = Ok [Heading; EffectiveIndexLine n_eff;
             ExpectedRangeLine (np_sqrt epsilon);
             DecayLine delta; TypicalLine]) /\
    (forall e,
       calculate_effective_index ez_data cell_size (1 / frequency) = Raise e ->
       quantitative_results ez_data cell_size width (1 / frequency)
                            (np_sqrt epsilon)
       = Ok [Heading; NoteLine e; DecayLine delta; TypicalLine]).
Proof.
  intros Hwf Hrun.
  assert (Hs : Field.size ez_data <> 0%nat).
  { intros E. unfold run_tests in Hrun.
    destruct (py_div 1 frequency) as [wl|] eqn:Ew; cbn [bind] in Hrun;
      [|discriminate].
    unfold test_resolution_np in Hrun. cbn [bind fst snd] in Hrun.
    unfold test_single_mode_condition_np in Hrun.
    destruct (py_div (PI * width) wl); cbn [bind fst snd] in Hrun;
      [|discriminate].
    unfold WaveguideTests.test_field_amplitude in Hrun.
    apply abs_of_nil_size in E. rewrite E in Hrun. discriminate. }
  destruct (nonempty_shape ez_data Hwf Hs) as [H0 H1].
  destruct (decay_length_value ez_data width cell_size Hwf H0 H1)
    as (edge & out & _ & _ & _ & _ & E).
  eexists. split; [exact E|].
  unfold quantitative_results. rewrite E. cbn [bind].
  split; intros x Hx; rewrite Hx; reflexivity.
Qed.

Lemma main_quantitative_block_completes_witness :
  exists tests delta,
    run_tests field_2x3 1 0.15 12 10 200 = Ok tests /\
    measure_decay_length field_2x3 1 cell_size = Ok delta /\
    (forall e,
       calculate_effective_index field_2x3 cell_size (1 / 0.15) = Raise e ->
       quantitative_results field_2x3 cell_size 1 (1 / 0.15) (np_sqrt 12)
       = Ok [Heading; NoteLine e; DecayLine delta; TypicalLine]).
Proof.
  destruct (run_tests_value field_2x3 1 0.15 12 10 200)
    as (r1 & r2 & r3 & r4 & r5 & Hrun & _);
    [lra | vm_compute; discriminate |].
  destruct (main_quantitative_block_completes field_2x3 1 0.15 12 10 200 _
              field_2x3_wf Hrun) as (delta & Hd & _ & Hn).
  eexists. exists delta. split; [exact Hrun|]. split; assumption.
Defined.

End MainMore.

(** ** The field amplitude, sample by sample; the checks on numpy scalars *)

Section AmplitudeMore.
Import WaveguideTests QuickStart.



(** On finite arguments the checks called with numpy scalars are the checks
    called with floats. *)
Lemma test_resolution_np_finite resolution wavelength min_ppw self :
  test_resolution_np resolution (Fin wavelength) min_ppw self
  = test_resolution resolution wavelength min_ppw self.
Proof. reflexivity. Qed.

Lemma test_single_mode_condition_np_finite width wavelength n_core n_cladding self :
  test_single_mode_condition_np width wavelength (Fin n_core) n_cladding self
  = test_single_mode_condition width wavelength n_core n_cladding self.
Proof.
  unfold test_single_mode_condition_np, test_single_mode_condition, V_number.
  destruct (py_div (PI * width) wavelength); reflexivity.
Qed.

End AmplitudeMore.
(** * Properties of the binary64 model *)

(** ** The order of binary64 values *)

Section FloatOrder.

Lemma SFcompare_trans (a b c : spec_float) :
  SFcompare a b = Some Lt \/ SFcompare a b = Some Eq ->
  SFcompare b c = Some Lt \/ SFcompare b c = Some Eq ->
  SFcompare a c = Some Lt \/ SFcompare a c = Some Eq.
Proof.
  destruct a as [sa|sa| |sa ma ea], b as [sb|sb| |sb mb eb],
    c as [sc|sc| |sc mc ec];
  try destruct sa; try destruct sb; try destruct sc; simpl;
  intros H1 H2;
  try (destruct H1 as [H1|H1]; discriminate H1);
  try (destruct H2 as [H2|H2]; discriminate H2);
  try (left; reflexivity); try (right; reflexivity).
  all: change (Pos.compare_cont Eq) with Pos.compare in *.
  all: destruct (Z.compare_spec ea eb), (Z.compare_spec eb ec), (Z.compare_spec ea ec);
    try lia; subst;
    try (destruct H1 as [H1|H1]; discriminate H1);
    try (destruct H2 as [H2|H2]; discriminate H2);
    try (left; reflexivity); try (right; reflexivity).
  all: destruct (Pos.compare_spec ma mb), (Pos.compare_spec mb mc), (Pos.compare_spec ma mc);
    try lia; subst; simpl in *;
    try (destruct H1 as [H1|H1]; discriminate H1);
    try (destruct H2 as [H2|H2]; discriminate H2);
    try (left; reflexivity); try (right; reflexivity).
Qed.

Lemma SFcompare_total (a b : spec_float) :
  SFcompare a b = Some Gt -> SFcompare b a = Some Lt.
Proof.
  destruct a as [sa|sa| |sa ma ea], b as [sb|sb| |sb mb eb];
  try destruct sa; try destruct sb; simpl; intros H1;
  try discriminate H1; try reflexivity.
  all: change (Pos.compare_cont Eq) with Pos.compare in *.
  all: destruct (Z.compare_spec ea eb), (Z.compare_spec eb ea); try lia; subst;
    try discriminate H1; try reflexivity.
  all: destruct (Pos.compare_spec ma mb), (Pos.compare_spec mb ma); try lia; subst;
    simpl in *; try discriminate H1; try reflexivity.
Qed.

Lemma SFcompare_none (a b : spec_float) :
  SFcompare a b = None -> a = S754_nan \/ b = S754_nan.
Proof.
  destruct a as [sa|sa| |sa ma ea], b as [sb|sb| |sb mb eb]; simpl; intros H;
  try discriminate H; auto.
Qed.

Lemma SFcompare_refl (a : spec_float) :
  a <> S754_nan -> SFcompare a a = Some Eq.
Proof.
  destruct a as [sa|sa| |sa ma ea]; try destruct sa; simpl; intros H;
  try reflexivity; try congruence.
  all: rewrite Z.compare_refl; change (Pos.compare_cont Eq) with Pos.compare;
       rewrite Pos.compare_refl; reflexivity.
Qed.

Lemma is_nan_spec (a : float) :
  is_nan a = true <-> Prim2SF a = S754_nan.
Proof.
  unfold is_nan. rewrite FloatAxioms.eqb_spec. unfold SFeqb. split.
  - intros H. destruct (Prim2SF a) eqn:E; try reflexivity; exfalso.
    all: rewrite SFcompare_refl in H by discriminate; discriminate H.
  - intros ->. reflexivity.
Qed.

Lemma leb_trans (a b c : float) :
  (a <=? b)%float = true -> (b <=? c)%float = true -> (a <=? c)%float = true.
Proof.
  rewrite !FloatAxioms.leb_spec. unfold SFleb. intros H1 H2.
  destruct (SFcompare_trans (Prim2SF a) (Prim2SF b) (Prim2SF c)) as [E|E].
  - destruct (SFcompare (Prim2SF a) (Prim2SF b)) as [[]|]; auto; discriminate.
  - destruct (SFcompare (Prim2SF b) (Prim2SF c)) as [[]|]; auto; discriminate.
  - rewrite E; reflexivity.
  - rewrite E; reflexivity.
Qed.

Lemma leb_total (a b : float) :
  is_nan a = false -> is_nan b = false ->
  (a <=? b)%float = false -> (b <=? a)%float = true.
Proof.
  intros Ha Hb. rewrite !FloatAxioms.leb_spec. unfold SFleb. intros H.
  destruct (SFcompare (Prim2SF a) (Prim2SF b)) as [[]|] eqn:E; try discriminate H.
  - rewrite (SFcompare_total _ _ E). reflexivity.
  - exfalso. destruct (SFcompare_none _ _ E) as [N|N];
      apply is_nan_spec in N; congruence.
Qed.

Lemma leb_nan_l (a b : float) : is_nan a = true -> (a <=? b)%float = false.
Proof.
  intros H. apply is_nan_spec in H. rewrite FloatAxioms.leb_spec. unfold SFleb. rewrite H.
  reflexivity.
Qed.


Lemma ltb_nan_l (a b : float) : is_nan a = true -> (a <? b)%float = false.
Proof.
  intros H. apply is_nan_spec in H. rewrite FloatAxioms.ltb_spec. unfold SFltb. rewrite H.
  reflexivity.
Qed.

Lemma leb_refl (a : float) : is_nan a = false -> (a <=? a)%float = true.
Proof.
  intros H. rewrite FloatAxioms.leb_spec. unfold SFleb. rewrite SFcompare_refl; auto.
  intros N. apply is_nan_spec in N. congruence.
Qed.


Import Float64.

Lemma le_max_refl a : Spec.le_max a a = true.
Proof.
  unfold Spec.le_max. destruct (is_nan a) eqn:E; [reflexivity|].
  now apply leb_refl.
Qed.

Lemma le_max_total a b : Spec.le_max a b = false -> Spec.le_max b a = true.
Proof.
  unfold Spec.le_max. intros H. apply orb_false_iff in H. destruct H as [Hb H].
  destruct (is_nan a) eqn:Ha; [reflexivity|]. now apply leb_total.
Qed.

Lemma le_max_trans a b c :
  Spec.le_max a b = true -> Spec.le_max b c = true -> Spec.le_max a c = true.
Proof.
  unfold Spec.le_max. intros H1 H2.
  destruct (is_nan c) eqn:Hc; [reflexivity|]. simpl in *.
  destruct (is_nan b) eqn:Hb.
  - rewrite (leb_nan_l b c Hb) in H2. discriminate.
  - simpl in H1. now apply (leb_trans a b c).
Qed.




End FloatOrder.

(** ** The scans of argmax and argmin *)

Section FloatScan.
Import Float64.

Lemma scan_max_first (l : list float) : forall pre best mp,
  (best < length pre)%nat ->
  nth best pre 0%float = mp ->
  (forall k, (k < length pre)%nat -> Spec.le_max (nth k pre 0%float) mp = true) ->
  (forall k, (k < best)%nat -> Spec.le_max mp (nth k pre 0%float) = false) ->
  let r := Numpy.scan_max l (length pre) best mp in
  (r < length (pre ++ l))%nat /\
  (forall k, (k < length (pre ++ l))%nat ->
     Spec.le_max (nth k (pre ++ l) 0%float) (nth r (pre ++ l) 0%float) = true) /\
  (forall k, (k < r)%nat ->
     Spec.le_max (nth r (pre ++ l) 0%float) (nth k (pre ++ l) 0%float) = false).
Proof.
  induction l as [|v t IH]; intros pre best mp Hb Hv Hle Hlt;
    cbn [Numpy.scan_max].
  - rewrite app_nil_r. cbv zeta. rewrite Hv. auto.
  - assert (Hlen : length (pre ++ [v]) = S (length pre))
      by (rewrite length_app; simpl; lia).
    destruct (is_nan mp) eqn:Hn.
    + cbv zeta. rewrite length_app. split; [lia|].
      rewrite (app_nth1 pre (v :: t) 0%float Hb), Hv. split.
      * intros k _. unfold Spec.le_max. now rewrite Hn.
      * intros k Hk. rewrite app_nth1 by lia. now apply Hlt.
    + replace (pre ++ v :: t) with ((pre ++ [v]) ++ t)
        by (rewrite <- app_assoc; reflexivity).
      rewrite <- Hlen.
      assert (Hvm : Spec.le_max v mp = (v <=? mp)%float)
        by (unfold Spec.le_max; now rewrite Hn).
      destruct (v <=? mp)%float eqn:E; cbn [negb].
      * apply IH.
        -- lia.
        -- rewrite app_nth1 by lia. exact Hv.
        -- intros k Hk. rewrite Hlen in Hk.
           destruct (Nat.eq_dec k (length pre)) as [->|Hne].
           ++ rewrite app_nth2, Nat.sub_diag by lia. exact Hvm.
           ++ rewrite app_nth1 by lia. apply Hle. lia.
        -- intros k Hk. rewrite app_nth1 by lia. now apply Hlt.
      * apply le_max_total in Hvm as Hmv. apply IH.
        -- lia.
        -- rewrite app_nth2, Nat.sub_diag by lia. reflexivity.
        -- intros k Hk. rewrite Hlen in Hk.
           destruct (Nat.eq_dec k (length pre)) as [->|Hne].
           ++ rewrite app_nth2, Nat.sub_diag by lia. apply le_max_refl.
           ++ rewrite app_nth1 by lia.
              apply (le_max_trans _ mp); [apply Hle; lia | exact Hmv].
        -- intros k Hk. rewrite app_nth1 by lia.
           destruct (Spec.le_max v (nth k pre 0%float)) eqn:Ek; [|reflexivity].
           rewrite (le_max_trans _ _ _ Ek (Hle k Hk)) in Hvm. discriminate.
Qed.


(** [np.argmax] returns the first index of the largest element, nan counting
    as the largest. *)
Lemma argmax_first_max (l : list float) :
  l <> [] ->
  exists r,
    Numpy.argmax l = Return r /\
    Spec.first_max (fun k => nth k l 0%float) 0 (length l) r.
Proof.
  destruct l as [|v t]; [congruence|]. intros _.
  exists (Numpy.scan_max t 1 0 v). split; [reflexivity|].
  destruct (scan_max_first t [v] 0%nat v) as (H1 & H2 & H3).
  - simpl; lia.
  - reflexivity.
  - intros k Hk. simpl in Hk. replace k with 0%nat by lia. apply le_max_refl.
  - intros k Hk. lia.
  - unfold Spec.first_max. cbn [length app] in *. split; [lia|]. split.
    + intros k Hk. apply H2. lia.
    + intros k Hk. apply H3. lia.
Qed.


End FloatScan.

(** ** The grid of np.linspace *)

Section FloatLinspace.
Import Float64.



End FloatLinspace.

(** ** The confinement factor in binary64 *)

Section FloatConfinement.
Import Float64 Float64.WaveguideTests.






(** The grid of np.linspace is not mirror-symmetric: over [-0.5, 0.5] with 7
    points it holds -0.33333333333333337 at index 1 and 0.33333333333333326
    at index 5, so a band of half-width 1/3 takes column 5 and leaves
    column 1. *)
Lemma band_not_symmetric :
  Spec.band (2 / 3) 1 7 = [2; 3; 4; 5]%nat.
Proof. reflexivity. Qed.


End FloatConfinement.

(** ** Overflow in the confinement check *)

Section FloatConfinementOverflow.
Import Float64 Float64.WaveguideTests.







End FloatConfinementOverflow.

(** ** The confinement factor in exact arithmetic *)

Section ConfinementExact.
Import WaveguideTests.






End ConfinementExact.

Section ConfinementExactWitness.
Import WaveguideTests.


End ConfinementExactWitness.

(** ** The single-mode check in binary64 *)

Section FloatSingleMode.
Import Float64 Float64.WaveguideTests.

Variable py_pow2 : float -> outcome float.

Lemma py_div_value a b :
  (b =? 0)%float = false -> py_div a b = Return (a / b)%float.
Proof. intros H. unfold py_div. now rewrite H. Qed.

Lemma py_div_by_zero a b :
  (b =? 0)%float = true -> py_div a b = Throw ZeroDivisionError.
Proof. intros H. unfold py_div. now rewrite H. Qed.

Lemma V_number_value width wavelength n_core n_cladding n2 c2 :
  (wavelength =? 0)%float = false ->
  py_pow2 n_core = Return n2 ->
  py_pow2 n_cladding = Return c2 ->
  V_number py_pow2 width wavelength n_core n_cladding
    = Return (np_pi * width / wavelength * PrimFloat.sqrt (n2 - c2))%float.
Proof.
  intros Hw Hn Hc. unfold V_number.
  rewrite py_div_value by assumption. cbn [and_then].
  rewrite Hn. cbn [and_then]. rewrite Hc. reflexivity.
Qed.

(** At a zero wavelength the first division raises, whatever the indices. *)
Lemma V_number_no_wavelength width wavelength n_core n_cladding :
  (wavelength =? 0)%float = true ->
  V_number py_pow2 width wavelength n_core n_cladding
    = Throw ZeroDivisionError.
Proof. intros Hw. unfold V_number. now rewrite py_div_by_zero. Qed.

(** An exception of [n_core ** 2] leaves the check. *)
Lemma V_number_square_raises width wavelength n_core n_cladding e :
  (wavelength =? 0)%float = false ->
  py_pow2 n_core = Throw e ->
  V_number py_pow2 width wavelength n_core n_cladding = Throw e.
Proof.
  intros Hw Hn. unfold V_number.
  rewrite py_div_value by assumption. cbn [and_then]. now rewrite Hn.
Qed.


End FloatSingleMode.

Section FloatSingleModeClaims.
Import Float64 Float64.WaveguideTests.

(** C4, as amended.  For a wavelength that is not zero and indices whose
    squares [n_core ** 2] and [n_cladding ** 2] do not overflow, the
    single-mode check computes, in binary64,
    V = (pi * width / wavelength) * sqrt (n_core^2 - n_cladding^2),
    records it and returns True exactly when V < pi/2 (V is nan, and the
    verdict False, when n_core^2 < n_cladding^2); [n_cladding] defaults
    to 1.0. *)
Theorem single_mode_check_computes_V
    (py_pow2 : float -> outcome float)
    (width wavelength n_core n_cladding n2 c2 : float) (self : t) :
  (wavelength =? 0)%float = false ->
  py_pow2 n_core = Return n2 ->
  py_pow2 n_cladding = Return c2 ->
  let V := (np_pi * width / wavelength * PrimFloat.sqrt (n2 - c2))%float in
  test_single_mode_condition py_pow2 width wavelength n_core n_cladding self
    = Return ((V <? np_pi / 2)%float,
              append self
                {| test := "Single-Mode Condition";
                   measured := V;
                   expected := Below (np_pi / 2)%float;
                   passed := (V <? np_pi / 2)%float;
                   message := (V, if (V <? np_pi / 2)%float
                                  then "Single-mode PASS"
                                  else "Multi-mode FAIL") |}) /\
  default_n_cladding = 1%float.
Proof.
  intros Hw Hn Hc V. split; [|reflexivity].
  unfold test_single_mode_condition.
  rewrite (V_number_value py_pow2 _ _ _ _ n2 c2) by assumption.
  reflexivity.
Qed.

(** At width 1.0, wavelength 6.67, n_core 3.46, n_cladding 1.0 and with a
    correctly rounded square the check records V = 1.560123654632261. *)
Lemma single_mode_check_computes_V_witness :
  test_single_mode_condition pow2_correctly_rounded
      1 0x1.aae147ae147aep+2 0x1.bae147ae147aep+1 default_n_cladding
      init_default
    = Return (true,
              append init_default
                {| test := "Single-Mode Condition";
                   measured := 0x1.8f64438a5c8f3p+0;
                   expected := Below (np_pi / 2)%float;
                   passed := true;
                   message := (0x1.8f64438a5c8f3p+0%float,
                               "Single-mode PASS") |}).
Proof.
  destruct (single_mode_check_computes_V pow2_correctly_rounded
              1 0x1.aae147ae147aep+2 0x1.bae147ae147aep+1 default_n_cladding
              (0x1.bae147ae147aep+1 * 0x1.bae147ae147aep+1) 1
              init_default eq_refl eq_refl eq_refl) as [H _].
  rewrite H. reflexivity.
Defined.

(** C4, as stated, fails: at wavelength 0.0 the check raises
    ZeroDivisionError, and at n_core = 1e200 the square overflows and the
    check raises OverflowError; no value is computed and nothing is
    returned. *)
Lemma single_mode_check_raises :
  (forall py_pow2 self,
     test_single_mode_condition py_pow2
         1 0 0x1.bae147ae147aep+1 1 self
       = Throw ZeroDivisionError) /\
  (forall py_pow2 self,
     py_pow2 0x1.4e718d7d7625ap+664%float = Throw OverflowError ->
     test_single_mode_condition py_pow2
         1 0x1.aae147ae147aep+2 0x1.4e718d7d7625ap+664 1 self
       = Throw OverflowError) /\
  pow2_correctly_rounded 0x1.4e718d7d7625ap+664 = Throw OverflowError.
Proof.
  split; [|split].
  - intros py_pow2 self. unfold test_single_mode_condition.
    now rewrite V_number_no_wavelength.
  - intros py_pow2 self H. unfold test_single_mode_condition.
    now rewrite (V_number_square_raises py_pow2 _ _ _ _ OverflowError).
  - reflexivity.
Qed.




End FloatSingleModeClaims.

(** ** The decay length in binary64 *)

Section FloatDecayLength.
Import Float64 Float64.WaveguideAnalysis.

Lemma item_value {A} (l : list A) i d :
  (i < length l)%nat -> Numpy.item l i = Return (nth i l d).
Proof.
  intros H. unfold Numpy.item.
  now rewrite (nth_error_nth' l d H).
Qed.





End FloatDecayLength.

(** ** The effective index in binary64 *)

Section FloatEffectiveIndex.
Import Float64 Float64.WaveguideAnalysis.

Lemma bins_split n :
  (0 < n)%nat -> (((n - 1) / 2 + 1) + n / 2 = n)%nat.
Proof.
  intros Hn.
  pose proof (Nat.div_mod_eq n 2) as E1.
  pose proof (Nat.div_mod_eq (n - 1) 2) as E2.
  pose proof (Nat.mod_upper_bound n 2) as B1.
  pose proof (Nat.mod_upper_bound (n - 1) 2) as B2.
  lia.
Qed.

Lemma float_of_int_nat k : float_of_int (Z.of_nat k) = float_of_nat k.
Proof.
  unfold float_of_int.
  replace (Z.of_nat k <? 0)%Z with false by (symmetry; apply Z.ltb_ge; lia).
  now rewrite Nat2Z.id.
Qed.

Lemma float_of_int_neg k m :
  (k < m)%nat ->
  float_of_int (Z.of_nat k - Z.of_nat m) = (- float_of_nat (m - k))%float.
Proof.
  intros H. unfold float_of_int.
  replace (Z.of_nat k - Z.of_nat m <? 0)%Z with true
    by (symmetry; apply Z.ltb_lt; lia).
  f_equal. f_equal. lia.
Qed.

Lemma seq_from m : forall s, seq s m = map (fun k => (s + k)%nat) (seq 0 m).
Proof.
  induction m as [|m IH]; intros s; [reflexivity|].
  cbn [seq map]. rewrite Nat.add_0_r. f_equal.
  rewrite <- (seq_shift m 0), map_map, (IH (S s)).
  apply map_ext. intros k. lia.
Qed.

(** [np.fft.fftfreq(n, d)] holds [Spec.bin_freq n d k] at index [k]. *)
Lemma fftfreq_value n d :
  (0 < n)%nat ->
  (float_of_nat n * d =? 0)%float = false ->
  Numpy.fftfreq n d = Return (map (Spec.bin_freq n d) (seq 0 n)).
Proof.
  intros Hn Hd. unfold Numpy.fftfreq.
  rewrite py_div_value by assumption. cbn [and_then].
  replace (n =? 0)%nat with false by (symmetry; apply Nat.eqb_neq; lia).
  f_equal.
  set (N := ((n - 1) / 2 + 1)%nat).
  assert (Hs : (N + n / 2 = n)%nat) by now apply bins_split.
  rewrite <- Hs at 3. rewrite seq_app, !map_app, !map_map. f_equal.
  - apply map_ext_in. intros k Hk. apply in_seq in Hk.
    unfold Spec.bin_freq. fold N.
    replace (k <? N)%nat with true by (symmetry; apply Nat.ltb_lt; lia).
    now rewrite float_of_int_nat.
  - cbn [Nat.add]. rewrite (seq_from (n / 2) N), map_map. apply map_ext_in. intros k Hk. apply in_seq in Hk.
    unfold Spec.bin_freq. fold N.
    replace (N + k <? N)%nat with false by (symmetry; apply Nat.ltb_ge; lia).
    rewrite float_of_int_neg by lia.
    replace (n - (N + k))%nat with (n / 2 - k)%nat by lia. reflexivity.
Qed.

End FloatEffectiveIndex.

Section FloatEffectiveIndexClaims.
Import Float64 Float64.WaveguideAnalysis.

Lemma column_by_index a j :
  (j < shape1 a)%nat ->
  Numpy.column a j = Return (map (fun i => Spec.sample a i j) (seq 0 (shape0 a))).
Proof.
  intros Hj. unfold Numpy.column.
  replace (j <? shape1 a)%nat with true by (symmetry; now apply Nat.ltb_lt).
  f_equal. unfold shape0, Spec.sample.
  rewrite (list_as_map (rows a) []) at 1. now rewrite map_map.
Qed.




End FloatEffectiveIndexClaims.

(** * Further properties of the binary64 model *)

Section FloatNan.

Lemma nan_of_spec v : Prim2SF v = S754_nan -> v = nan.
Proof. intros H. rewrite <- (SF2Prim_Prim2SF v), H. reflexivity. Qed.

(** [np.sqrt] of a negative number is nan. *)
Lemma sqrt_negative_nan x : (x <? 0)%float = true -> PrimFloat.sqrt x = nan.
Proof.
  rewrite FloatAxioms.ltb_spec. intros H. apply nan_of_spec.
  rewrite sqrt_spec.
  change (Prim2SF 0) with (S754_zero false) in H.
  destruct (Prim2SF x) as [s|s| |s m e]; try destruct s; try discriminate H;
    reflexivity.
Qed.

Lemma mul_nan_r q : (q * nan)%float = nan.
Proof.
  apply nan_of_spec. rewrite mul_spec.
  change (Prim2SF nan) with S754_nan.
  destruct (Prim2SF q); reflexivity.
Qed.

End FloatNan.

Section FloatSingleModeMore.
Import Float64 Float64.WaveguideTests.

(** X5.  When [n_core ** 2 - n_cladding ** 2] is negative and the wavelength
    is not zero, [np.sqrt] yields nan, V is nan, and the single-mode check
    records nan and returns False (Multi-mode FAIL). *)
Theorem single_mode_antiguiding_fails
    (py_pow2 : float -> outcome float)
    (width wavelength n_core n_cladding n2 c2 : float) (self : t) :
  (wavelength =? 0)%float = false ->
  py_pow2 n_core = Return n2 ->
  py_pow2 n_cladding = Return c2 ->
  (n2 - c2 <? 0)%float = true ->
  test_single_mode_condition py_pow2 width wavelength n_core n_cladding self
    = Return (false,
              append self
                {| test := "Single-Mode Condition";
                   measured := nan;
                   expected := Below (np_pi / 2)%float;
                   passed := false;
                   message := (nan, "Multi-mode FAIL") |}).
Proof.
  intros Hw Hn Hc Hneg. unfold test_single_mode_condition.
  rewrite (V_number_value py_pow2 _ _ _ _ n2 c2) by assumption.
  rewrite (sqrt_negative_nan _ Hneg), mul_nan_r. reflexivity.
Qed.

Lemma single_mode_antiguiding_fails_witness :
  test_single_mode_condition pow2_correctly_rounded
      1 0x1.aae147ae147aep+2 1 0x1.bae147ae147aep+1 init_default
    = Return (false,
              append init_default
                {| test := "Single-Mode Condition";
                   measured := nan;
                   expected := Below (np_pi / 2)%float;
                   passed := false;
                   message := (nan, "Multi-mode FAIL") |}).
Proof.
  apply (single_mode_antiguiding_fails pow2_correctly_rounded
           1 0x1.aae147ae147aep+2 1 0x1.bae147ae147aep+1
           1 (0x1.bae147ae147aep+1 * 0x1.bae147ae147aep+1));
    reflexivity.
Defined.

(** X7.  The confinement check never raises.  The single-mode check raises
    in two cases only: ZeroDivisionError at a zero wavelength, before the
    indices are looked at, and whatever [n_core ** 2] or [n_cladding ** 2]
    raises (OverflowError) otherwise; nothing is recorded then. *)
Theorem checks_raise_only_on_zero_wavelength_or_overflow :
  (forall np_sum_total np_sum_masked field_data waveguide_width cell_size
          expected self,
     exists b self',
       test_confinement_factor np_sum_total np_sum_masked
           field_data waveguide_width cell_size expected self
         = Return (b, self')) /\
  (forall py_pow2 width wavelength n_core n_cladding self e,
     test_single_mode_condition py_pow2 width wavelength n_core n_cladding self
       = Throw e <->
     ((wavelength =? 0)%float = true /\ e = ZeroDivisionError) \/
     ((wavelength =? 0)%float = false /\
      (py_pow2 n_core = Throw e \/
       exists n2, py_pow2 n_core = Return n2 /\ py_pow2 n_cladding = Throw e))).
Proof.
  split.
  - intros. do 2 eexists. reflexivity.
  - intros py_pow2 width wavelength n_core n_cladding self e.
    unfold test_single_mode_condition, V_number, py_div.
    destruct (wavelength =? 0)%float; cbn [and_then].
    + split.
      * intros H. inversion H. left. auto.
      * intros [[_ ->] | [H _]]; [reflexivity | discriminate].
    + destruct (py_pow2 n_core) as [n2|e1]; cbn [and_then].
      * destruct (py_pow2 n_cladding) as [c2|e2]; cbn [and_then].
        -- split; [discriminate|].
           intros [[H _] | [_ [H | (n & _ & H)]]]; discriminate.
        -- split.
           ++ intros H. inversion H. right. split; [reflexivity|].
              right. exists n2. auto.
           ++ intros [[H _] | [_ [H | (n & _ & H)]]]; try discriminate.
              now inversion H.
      * split.
        -- intros H. inversion H. right. auto.
        -- intros [[H _] | [_ [H | (n & H & _)]]]; try discriminate.
           now inversion H.
Qed.

End FloatSingleModeMore.

Section FloatEffectiveIndexMore.
Import Float64 Float64.WaveguideAnalysis.

(** X13.  [calculate_effective_index] raises IndexError on an array with no
    column; ValueError on one with columns and no row (the transform of an
    empty slice); ZeroDivisionError when [n * d] is zero for the spacing
    [d = extent / n], which includes an extent so small that [d] underflows
    to zero; ValueError on a single row (the largest of no bin); and
    ZeroDivisionError at a zero wavelength. *)
Theorem effective_index_errors
    (np_fft_fft : list float -> list complex)
    (np_abs_complex : complex -> float)
    (field_data : ndarray) (cell_size : Vector3) (wavelength_vacuum : float) :
  let run := calculate_effective_index np_fft_fft np_abs_complex
               field_data cell_size wavelength_vacuum in
  let n := shape0 field_data in
  let d := (v_x cell_size / float_of_nat n)%float in
  (shape1 field_data = 0%nat -> run = Throw IndexError) /\
  ((0 < shape1 field_data)%nat -> n = 0%nat -> run = Throw ValueError) /\
  ((0 < shape1 field_data)%nat -> (0 < n)%nat ->
   (float_of_nat n * d =? 0)%float = true -> run = Throw ZeroDivisionError) /\
  ((0 < shape1 field_data)%nat -> n = 1%nat ->
   (float_of_nat n * d =? 0)%float = false ->
   length (np_fft_fft [Spec.sample field_data 0 (shape1 field_data / 2)]) = 1%nat ->
   run = Throw ValueError) /\
  ((0 < shape1 field_data)%nat -> (2 <= n)%nat ->
   (float_of_nat n * d =? 0)%float = false ->
   (forall a, length (np_fft_fft a) = length a) ->
   (wavelength_vacuum =? 0)%float = true ->
   run = Throw ZeroDivisionError).
Proof.
  intros run n d. subst run n d. unfold calculate_effective_index.
  split; [|split; [|split; [|split]]].
  - intros H1. unfold Numpy.column. rewrite H1. reflexivity.
  - intros H1 Hn. rewrite column_by_index by (now apply half_lt).
    rewrite Hn. reflexivity.
  - intros H1 Hn Hd. rewrite column_by_index by (now apply half_lt).
    cbn [and_then].
    set (n := shape0 field_data) in *.
    assert (Hfx : length (map (fun i => Spec.sample field_data i
                                 (shape1 field_data / 2)) (seq 0 n)) = n)
      by now rewrite length_map, length_seq.
    set (field_x := map _ (seq 0 n)) in *.
    assert (Hfft : fft np_fft_fft field_x = Return (np_fft_fft field_x)).
    { unfold fft. destruct field_x; [simpl in Hfx; lia | reflexivity]. }
    rewrite Hfft. cbn [and_then]. rewrite Hfx. unfold py_div_int.
    replace (n =? 0)%nat with false by (symmetry; apply Nat.eqb_neq; lia).
    cbn [and_then]. unfold Numpy.fftfreq.
    now rewrite py_div_by_zero.
  - intros H1 Hn Hd Hlen. rewrite column_by_index by (now apply half_lt).
    cbn [and_then]. rewrite Hn in *. cbn [seq map length fft].
    cbn [and_then]. unfold py_div_int. cbn [Nat.eqb and_then].
    rewrite fftfreq_value by (assumption || lia). cbn [and_then].
    destruct (np_fft_fft _) as [|z [|z' l]]; try discriminate Hlen.
    reflexivity.
  - intros H1 Hn Hd Hlen Hw. rewrite column_by_index by (now apply half_lt).
    cbn [and_then].
    set (n := shape0 field_data) in *.
    assert (Hfx : length (map (fun i => Spec.sample field_data i
                                 (shape1 field_data / 2)) (seq 0 n)) = n)
      by now rewrite length_map, length_seq.
    set (field_x := map _ (seq 0 n)) in *.
    assert (Hfft : fft np_fft_fft field_x = Return (np_fft_fft field_x)).
    { unfold fft. destruct field_x; [simpl in Hfx; lia | reflexivity]. }
    rewrite Hfft. cbn [and_then]. rewrite Hfx. unfold py_div_int.
    replace (n =? 0)%nat with false by (symmetry; apply Nat.eqb_neq; lia).
    cbn [and_then].
    rewrite fftfreq_value by (assumption || lia). cbn [and_then].
    destruct (argmax_first_max
                (map np_abs_complex (skipn 1 (np_fft_fft field_x))))
      as (r & Hr & Hmax).
    { assert (Hl : length (map np_abs_complex (skipn 1 (np_fft_fft field_x)))
                   = (n - 1)%nat)
        by (rewrite length_map, length_skipn, Hlen, Hfx; reflexivity).
      intros E. rewrite E in Hl. simpl in Hl. lia. }
    rewrite Hr. cbn [and_then].
    assert (Hk : (r + 1 < n)%nat).
    { destruct Hmax as [Hk _].
      rewrite length_map, length_skipn, Hlen, Hfx in Hk. lia. }
    rewrite (item_value _ _ 0%float) by now rewrite length_map, length_seq.
    cbn [and_then]. now rewrite py_div_by_zero.
Qed.

(** A 2 x 1 field over an x extent of 5e-324, the least positive double: the
    spacing 5e-324 / 2 rounds to zero and the frequency grid cannot be
    built. *)
Lemma effective_index_errors_witness :
  (2 * (0x0.0000000000001p-1022 / 2) =? 0)%float = true /\
  forall np_fft_fft np_abs_complex wavelength_vacuum,
    calculate_effective_index np_fft_fft np_abs_complex
        (mkArray 1 [[1%float]; [-1]%float])
        (mkVector3 0x0.0000000000001p-1022 8 0) wavelength_vacuum
      = Throw ZeroDivisionError.
Proof.
  split; [reflexivity|].
  intros np_fft_fft np_abs_complex wavelength_vacuum.
  destruct (effective_index_errors np_fft_fft np_abs_complex
              (mkArray 1 [[1%float]; [-1]%float])
              (mkVector3 0x0.0000000000001p-1022 8 0) wavelength_vacuum)
    as (_ & _ & H & _).
  apply H.
  - apply Nat.ltb_lt; reflexivity.
  - apply Nat.ltb_lt; reflexivity.
  - reflexivity.
Defined.

End FloatEffectiveIndexMore.
